(** * rvnewop: the RV32 decoder facade and the RVInstruction value

    A shallow embedding of [rvnewop/RV32.py] and [rvnewop/RVInstruction.py].
    Python [str] values are Rocq strings whose characters are code points
    below 256 (module [Unicode] reads texts of arbitrary code points);
    Python [int] is [Z]; a [bitarray] is a [list bool], most
    significant bit first; a raised exception is the [Raise] branch of
    [result], tagged with the exception's class. *)

From Stdlib Require Import ZArith String Ascii List DecimalString Lia.
From stdpp Require Import base option gmap strings list.

Open Scope string_scope.
Open Scope Z_scope.

(** ** Exceptions and fallible results *)

(** The built-in exception classes the two files can raise, and [Custom]
    for a class defined elsewhere and named by its class name. *)
Inductive exn : Type :=
  | IndexError
  | ValueError
  | KeyError
  | Custom (cls : string).

Inductive result (A : Type) : Type :=
  | Ok (a : A)
  | Raise (e : exn).

Arguments Ok {A} a.
Arguments Raise {A} e.

Definition bind {A B : Type} (r : result A) (k : A -> result B) : result B :=
  match r with
  | Ok a => k a
  | Raise e => Raise e
  end.

Notation "'let*' x ':=' r 'in' k" := (bind r (fun x => k))
  (at level 10, x name, r at level 100, k at level 200).

(** [[f(x) for x in l]]: left to right, the first exception wins. *)
Fixpoint mapM {A B : Type} (f : A -> result B) (l : list A) : result (list B) :=
  match l with
  | [] => Ok []
  | x :: l' => let* y := f x in let* ys := mapM f l' in Ok (y :: ys)
  end.

(** ** The Python built-ins the source calls *)

Module Py.

Definition ord (c : ascii) : Z := Z.of_N (N_of_ascii c).

Definition between (lo hi : Z) (c : ascii) : bool :=
  (lo <=? ord c) && (ord c <=? hi).

(** [Py_ISSPACE]: the ASCII white space [int] skips around a literal. *)
Definition isspace_ascii (c : ascii) : bool :=
  between 9 13 c || (ord c =? 32).

(** [Py_UNICODE_ISSPACE] on code points below 256, used by [str.strip]. *)
Definition isspace (c : ascii) : bool :=
  between 9 13 c || between 28 32 c || (ord c =? 133) || (ord c =? 160).

(** [_PyLong_DigitValue]: the value of a character as a digit, up to base 36. *)
Definition digit_value (c : ascii) : option Z :=
  if between 48 57 c then Some (ord c - 48)
  else if between 97 122 c then Some (ord c - 87)
  else if between 65 90 c then Some (ord c - 55)
  else None.

Definition is_digit (base : Z) (c : ascii) : bool :=
  match digit_value c with
  | Some d => d <? base
  | None => false
  end.

Definition is_underscore (c : ascii) : bool := ord c =? 95.

Fixpoint lstrip_with (sp : ascii -> bool) (s : string) : string :=
  match s with
  | String c r => if sp c then lstrip_with sp r else s
  | EmptyString => s
  end.

Fixpoint rstrip_with (sp : ascii -> bool) (s : string) : string :=
  match s with
  | String c r =>
      match rstrip_with sp r with
      | EmptyString => if sp c then EmptyString else String c EmptyString
      | r' => String c r'
      end
  | EmptyString => EmptyString
  end.

(** [s.strip()] *)
Definition strip (s : string) : string := rstrip_with isspace (lstrip_with isspace s).

Definition is_ascii (s : string) : bool :=
  forallb (fun c => ord c <? 128) (list_ascii_of_string s).

(** [_PyUnicode_TransformDecimalAndSpaceToASCII]: an ASCII string is kept;
    otherwise white space from 127 up becomes a blank and the text is cut
    at the first other character from 127 up, which becomes [?] (no code
    point below 256 is a non-ASCII decimal digit). *)
Fixpoint transform_go (s : string) : string :=
  match s with
  | String c r =>
      if ord c <? 127 then String c (transform_go r)
      else if isspace c then String " " (transform_go r)
      else "?"
  | EmptyString => EmptyString
  end.

Definition transform (s : string) : string :=
  if is_ascii s then s else transform_go s.

(** The digit scan of [PyLong_FromString]: digits of the base with single
    underscores between them.  [prev] tells that the previous character was
    an underscore, [n] counts the characters consumed.  [None] is the
    syntax error of a doubled or trailing underscore. *)
Fixpoint scan_digits (base : Z) (prev : bool) (acc : Z) (n : nat) (s : string)
  : option (Z * nat * string) :=
  match s with
  | String c r =>
      if is_underscore c then
        if prev then None else scan_digits base true acc (S n) r
      else
        match digit_value c with
        | Some d =>
            if d <? base then scan_digits base false (acc * base + d) (S n) r
            else if prev then None else Some (acc, n, s)
        | None => if prev then None else Some (acc, n, s)
        end
  | EmptyString => if prev then None else Some (acc, n, s)
  end.

Definition skip_sign (s : string) : Z * string :=
  match s with
  | String "+" r => (1, r)
  | String "-" r => (-1, r)
  | _ => (1, s)
  end.

(** The [0x] marker of base 16, with the one underscore allowed after it. *)
Definition skip_prefix (base : Z) (s : string) : string :=
  if base =? 16 then
    match s with
    | String "0" (String c r) =>
        if (ord c =? 120) || (ord c =? 88) then
          match r with
          | String "_" r' => r'
          | _ => r
          end
        else s
    | _ => s
    end
  else s.

Definition starts_with_underscore (s : string) : bool :=
  match s with
  | String c _ => is_underscore c
  | EmptyString => false
  end.

(** [PyLong_FromString] for an explicit base 10 or 16 (the limit on the
    number of decimal digits of recent interpreters is not modelled). *)
Definition long_from_string (base : Z) (s : string) : result Z :=
  let '(sign, s1) := skip_sign (lstrip_with isspace_ascii s) in
  let s2 := skip_prefix base s1 in
  if starts_with_underscore s2 then Raise ValueError
  else
    match scan_digits base false 0 0 s2 with
    | None => Raise ValueError
    | Some (v, n, rest) =>
        match n, lstrip_with isspace_ascii rest with
        | S _, EmptyString => Ok (sign * v)
        | _, _ => Raise ValueError
        end
    end.

(** [int(s, base)] on a [str]. *)
Definition int (s : string) (base : Z) : result Z :=
  long_from_string base (transform s).

(** The binary digits of a positive number, most significant first,
    written in front of [acc]. *)
Fixpoint bin_digits (p : positive) (acc : string) : string :=
  match p with
  | xH => String "1" acc
  | xO q => bin_digits q (String "0" acc)
  | xI q => bin_digits q (String "1" acc)
  end.

(** [bin(n)] *)
Definition bin (n : Z) : string :=
  match n with
  | Z0 => "0b0"
  | Zpos p => "0b" ++ bin_digits p ""
  | Zneg p => "-0b" ++ bin_digits p ""
  end.

(** [str(n)] for an [int]. *)
Definition str_of_int (n : Z) : string := NilZero.string_of_int (Z.to_int n).

Fixpoint drop (n : nat) (s : string) : string :=
  match n, s with
  | S n', String _ r => drop n' r
  | _, _ => s
  end.

(** [s[-k:]] for a positive [k]: the last [k] characters, or all of [s]. *)
Definition last_chars (k : nat) (s : string) : string :=
  drop (String.length s - k) s.

Fixpoint zeros (n : nat) : string :=
  match n with
  | O => EmptyString
  | S n' => String "0" (zeros n')
  end.

(** [s.zfill(width)]: zeros go after a leading sign; a string already
    [width] long or longer is returned as it is. *)
Definition zfill (s : string) (width : nat) : string :=
  let fill := zeros (width - String.length s) in
  match s with
  | String "+" r => String "+" (fill ++ r)
  | String "-" r => String "-" (fill ++ r)
  | _ => fill ++ s
  end.

(** [sep.join(l)] *)
Fixpoint join (sep : string) (l : list string) : string :=
  match l with
  | [] => EmptyString
  | [x] => x
  | x :: l' => x ++ sep ++ join sep l'
  end.

(** [sub in s] on strings. *)
Fixpoint contains (sub s : string) : bool :=
  String.prefix sub s ||
  match s with
  | String _ r => contains sub r
  | EmptyString => false
  end.

(** [s[0]] *)
Definition first_char (s : string) : result ascii :=
  match s with
  | String c _ => Ok c
  | EmptyString => Raise IndexError
  end.

(** The integer nearest to [z] among those with at most 53 significant
    bits, ties going to the even one: the value of [z] as a double. *)
Definition round53 (z : Z) : Z :=
  let m := Z.abs z in
  let shift := Z.log2 m + 1 - 53 in
  if shift <=? 0 then z
  else
    let q := Z.shiftr m shift in
    let rest := m - Z.shiftl q shift in
    let half := Z.shiftl 1 (shift - 1) in
    let q' := if (half <? rest) || ((rest =? half) && Z.odd q) then q + 1 else q in
    Z.sgn z * Z.shiftl q' shift.

(** [int(n / 8)] for an [int]: the true division gives the double nearest
    to the quotient, or raises [OverflowError] when that is beyond the
    doubles; [int] cuts the fraction off. *)
Definition int_truediv8 (n : Z) : result Z :=
  let r := round53 n in
  if 2 ^ 1027 <=? Z.abs r then Raise (Custom "OverflowError")
  else Ok (Z.quot r 8).

End Py.

(** ** bitarray *)

Definition bitarray : Type := list bool.

(** [bitarray(s)] for a [str].  The facade passes it binary digits and,
    for a negative number, the [b] left of [bin]'s marker, which it rejects
    with [ValueError]. *)
Fixpoint bitarray_of_str (s : string) : result bitarray :=
  match s with
  | EmptyString => Ok []
  | String "0" r => let* bs := bitarray_of_str r in Ok (false :: bs)
  | String "1" r => let* bs := bitarray_of_str r in Ok (true :: bs)
  | String _ _ => Raise ValueError
  end.

(** [ba.to01()] *)
Fixpoint to01 (ba : bitarray) : string :=
  match ba with
  | [] => EmptyString
  | b :: r => String (if b then "1" else "0")%char (to01 r)
  end.

(** ** RVInstruction.py *)

Module RVInstruction.

(** An element of the parameter list [__str__] joins: register names are
    [str], immediates are [int]; a mask entry may be either. *)
Inductive pyval : Type :=
  | PStr (s : string)
  | PInt (n : Z).

(** [str(v)] *)
Definition str (v : pyval) : string :=
  match v with
  | PStr s => s
  | PInt n => Py.str_of_int n
  end.

(** The attributes [__init__] sets.  [binary] holds the bit text (the
    default is the empty [str]). *)
Record t : Type := mk {
  format : string;
  src_registers : list string;
  dest_registers : list string;
  immediates : list Z;
  mask : list pyval;
  name : string;
  size : Z;
  binary : string;
  freq : Z
}.

(** [x if x is not None else d] *)
Definition or_default {A : Type} (x : option A) (d : A) : A :=
  match x with
  | Some a => a
  | None => d
  end.

Definition __init__
    (rv_format : option string)
    (rv_src_registers rv_dest_registers : option (list string))
    (rv_immediates : option (list Z))
    (rv_mask : option (list pyval))
    (rv_name : option string)
    (rv_size : option Z)
    (rv_binary : option string)
    (rv_freq : option Z) : t :=
  {| format := or_default rv_format "";
     src_registers := or_default rv_src_registers [];
     dest_registers := or_default rv_dest_registers [];
     immediates := or_default rv_immediates [];
     mask := or_default rv_mask [];
     name := or_default rv_name "";
     size := or_default rv_size 0;
     binary := or_default rv_binary "";
     freq := or_default rv_freq 0 |}.

(** [x in l] for a list of [str]. *)
Definition in_list (x : string) (l : list string) : bool :=
  existsb (String.eqb x) l.

Definition get_print_name (register_name : string) : result string :=
  let* c := Py.first_char register_name in
  if Ascii.eqb c "x" then
    let* xval := Py.int (Py.drop 1 register_name) 10 in
    if String.eqb register_name "x0" then Ok "zero"
    else if String.eqb register_name "x1" then Ok "ra"
    else if String.eqb register_name "x2" then Ok "sp"
    else if String.eqb register_name "x3" then Ok "gp"
    else if String.eqb register_name "x4" then Ok "tp"
    else if String.eqb register_name "x5" then Ok "t0"
    else if String.eqb register_name "x6" then Ok "t1"
    else if String.eqb register_name "x7" then Ok "t2"
    else if String.eqb register_name "x8" then Ok "s0"
    else if String.eqb register_name "x9" then Ok "s1"
    else if (xval >=? 10) && (xval <=? 17) then Ok ("a" ++ Py.str_of_int (xval - 10))
    else if (xval >=? 12) && (xval <=? 27) then Ok ("s" ++ Py.str_of_int (xval - 16))
    else if (xval >=? 28) && (xval <=? 31) then Ok ("t" ++ Py.str_of_int (xval - 25))
    else Ok register_name
  else Ok register_name.

Definition sizeInBytes (self : t) : result Z :=
  Py.int_truediv8 (size self).

Definition isJump (self : t) : bool :=
  in_list (name self) ["j"; "jal"; "jalr"; "jr"; "c.j"; "c.jal"; "c.jalr"; "c.jr"].

Definition isJumpPCRelative (self : t) : bool :=
  in_list (name self) ["j"; "jal"; "c.j"; "c.jal"].

Definition isBranch (self : t) : bool :=
  in_list (name self)
    ["beq"; "bne"; "blt"; "bltu"; "bge"; "bgeu"; "beqz"; "bnez"; "blez";
     "bgez"; "bltz"; "bgtz"; "bgt"; "ble"; "bgtu"; "bleu"; "c.beqz"; "c.bnez"].

Definition isControlTransfer (self : t) : bool :=
  isJump self || isBranch self.

Definition isControlTransferPCRelative (self : t) : bool :=
  isJumpPCRelative self || isBranch self.

Definition isLoad (self : t) : bool :=
  in_list (name self)
    ["c.fld"; "c.lq"; "c.lw"; "c.flw"; "c.ld"; "c.fldsp"; "c.lwsp"; "c.flwsp";
     "c.ldsp"; "lb"; "lh"; "lw"; "lbu"; "lhu"; "ld"; "lwu"].

Definition isStore (self : t) : bool :=
  in_list (name self)
    ["c.fsd"; "c.sq"; "c.sw"; "c.fsw"; "c.sd"; "c.fsdsp"; "c.swsp"; "c.fswsp";
     "c.sdsp"; "sb"; "sh"; "sw"; "sd"].

Definition isMemAccess (self : t) : bool :=
  isLoad self || isStore self.

(** [",".join(map(str, dest + src + imm + mask))] *)
Definition parameters_of (dest src : list string) (imm : list Z) (mask : list pyval) : string :=
  Py.join "," (map str (map PStr dest ++ map PStr src ++ map PInt imm ++ mask)).

(** [src[0]] *)
Definition first_of (src : list string) : result string :=
  match src with
  | x :: _ => Ok x
  | [] => Raise IndexError
  end.

(** The attributes are never [None] once [__init__] has run, so the
    [is None] tests of the source take their [else] branch. *)
Definition __str__ (self : t) : result string :=
  let name := name self in
  let* dest := mapM get_print_name (dest_registers self) in
  let* src := mapM get_print_name (src_registers self) in
  let imm := immediates self in
  let mask := mask self in
  if in_list name
       ["lb"; "lh"; "lw"; "lbu"; "lhu"; "sb"; "sh"; "sw"; "c.lw"; "c.sw";
        "c.lwsp"; "c.swsp"; "jalr"] then
    let* base_parameters :=
      if in_list name ["c.lwsp"; "c.swsp"] then
        Ok ("sp", parameters_of dest src imm mask)
      else
        let* base := first_of src in
        Ok (base, parameters_of dest (tail src) imm mask)
    in
    let base := fst base_parameters in
    let parameters := snd base_parameters in
    Ok (Py.strip (name ++ " " ++ parameters ++ "(" ++ base ++ ")"))
  else
    let parameters := parameters_of dest src imm mask in
    Ok (Py.strip (name ++ " " ++ parameters)).

End RVInstruction.

(** ** RV32.py *)

(** What the facade reads from an extension module ([I32], [M32], [V32],
    [C32]): its opcode table and its set of mnemonics. *)
Module Extension.

Record t : Type := mk {
  instructionTable : gmap bitarray (bitarray -> result RVInstruction.t);
  instructionNameSet : gset string
}.

End Extension.

Module RV32.

Record t : Type := mk {
  instructionTable : gmap bitarray (bitarray -> result RVInstruction.t);
  instructionNameSet : gset string
}.

Section Facade.

(** The modules the facade imports and this development does not embed:
    [RVFormatParser.getOpcode] and the four extension modules. *)
Variable getOpcode : bitarray -> result bitarray.
Variables I32 M32 V32 C32 : Extension.t.

(** [d.update(other)]: the entries of [other] replace those of [d]. *)
Definition update {V : Type} (d other : gmap bitarray V) : gmap bitarray V :=
  other ∪ d.

Definition __init__ (isa : string) : t :=
  let self := {| instructionTable := ∅; instructionNameSet := ∅ |} in
  let self :=
    if Py.contains "32I" isa then
      {| instructionTable := update (instructionTable self) (Extension.instructionTable I32);
         instructionNameSet := instructionNameSet self ∪ Extension.instructionNameSet I32 |}
    else self in
  let self :=
    if Py.contains "M" isa then
      {| instructionTable := update (instructionTable self) (Extension.instructionTable M32);
         instructionNameSet := instructionNameSet self ∪ Extension.instructionNameSet M32 |}
    else self in
  let self :=
    if Py.contains "V" isa then
      {| instructionTable := update (instructionTable self) (Extension.instructionTable V32);
         instructionNameSet := instructionNameSet self |}
    else self in
  let self :=
    if Py.contains "C" isa then
      {| instructionTable := update (instructionTable self) (Extension.instructionTable C32);
         instructionNameSet := instructionNameSet self ∪ Extension.instructionNameSet C32 |}
    else self in
  self.

(** [self.instructionTable[getOpcode(ba)](ba)]: the key is computed, then
    looked up (a missing key raises [KeyError]), then the entry is called. *)
Definition decode (self : t) (ba : bitarray) : result RVInstruction.t :=
  let* key := getOpcode ba in
  match instructionTable self !! key with
  | Some f => f ba
  | None => Raise KeyError
  end.

Definition decodeHex (self : t) (hex : string) : result RVInstruction.t :=
  let* n := Py.int hex 16 in
  let* ba0 := bitarray_of_str (Py.drop 2 (Py.bin n)) in
  let bstr := to01 ba0 in
  let size := 32%nat in
  let size := if negb (String.eqb (Py.last_chars 2 bstr) "11") then 16%nat else size in
  let bstr := Py.zfill bstr size in
  let* ba := bitarray_of_str bstr in
  decode self ba.

End Facade.

End RV32.

(** ** A sample configuration

    The extension modules are outside the embedded files; the facade is run
    on concrete words with the small tables below. *)

Module Sample.

(** Modelled from the spec: [RVFormatParser.getOpcode], which is not among
    the embedded files.  The key of a 32-bit sequence is its lowest seven
    bits, the key of a 16-bit sequence its lowest two bits (the quadrant).
    The spec gives no key to a sequence of another length; the model raises
    there. *)
Definition getOpcode (ba : bitarray) : result bitarray :=
  if (length ba =? 32)%nat then Ok (drop 25 ba)
  else if (length ba =? 16)%nat then Ok (drop 14 ba)
  else Raise ValueError.

(** A table entry that records the bits it was given. *)
Definition entry (fmt mnemonic : string) (ba : bitarray) : result RVInstruction.t :=
  Ok (RVInstruction.__init__ (Some fmt) None None None None (Some mnemonic)
        (Some (Z.of_nat (length ba))) (Some (to01 ba)) None).

Definition OP_IMM : bitarray := [false; false; true; false; false; true; true].
Definition OP_V : bitarray := [true; false; true; false; true; true; true].
Definition QUADRANT_1 : bitarray := [false; true].

Definition I32 : Extension.t :=
  {| Extension.instructionTable := {[ OP_IMM := entry "I" "addi" ]};
     Extension.instructionNameSet := {[ "addi" ]} |}.

Definition V32 : Extension.t :=
  {| Extension.instructionTable := {[ OP_V := entry "V" "vadd.vv" ]};
     Extension.instructionNameSet := ∅ |}.

Definition C32 : Extension.t :=
  {| Extension.instructionTable := {[ QUADRANT_1 := entry "CI" "c.addi" ]};
     Extension.instructionNameSet := {[ "c.addi" ]} |}.

Definition M32 : Extension.t :=
  {| Extension.instructionTable := ∅; Extension.instructionNameSet := ∅ |}.

Definition rv (isa : string) : RV32.t := RV32.__init__ I32 M32 V32 C32 isa.

Definition decode (isa : string) : bitarray -> result RVInstruction.t :=
  RV32.decode getOpcode (rv isa).

Definition decodeHex (isa hex : string) : result RVInstruction.t :=
  RV32.decodeHex getOpcode (rv isa) hex.

(** An instruction with the given mnemonic and operands. *)
Definition instr (mnemonic : string) (dest src : list string) (imm : list Z)
  : RVInstruction.t :=
  RVInstruction.__init__ None (Some src) (Some dest) (Some imm) None
    (Some mnemonic) None None None.

End Sample.

(** ** Texts of arbitrary code points

    A Python [str] may hold any Unicode code point.  [int] first turns the
    text into ASCII with the help of the interpreter's Unicode database and
    then parses it as above; here a text is a list of code points and the
    database is a parameter. *)

Module Unicode.

Section Database.

(** [Py_UNICODE_ISSPACE] and [Py_UNICODE_TODECIMAL], which [int] consults
    for the code points from 127 up. *)
Variable isspace : N -> bool.
Variable todecimal : N -> option N.

Definition is_ascii (t : list N) : bool :=
  forallb (fun c => (c <? 128)%N) t.

(** The text as it is, for code points below 256. *)
Fixpoint narrow (t : list N) : string :=
  match t with
  | [] => EmptyString
  | c :: r => String (ascii_of_N c) (narrow r)
  end.

(** [_PyUnicode_TransformDecimalAndSpaceToASCII] on a text that is not
    ASCII: code points below 127 are kept, white space becomes a blank, a
    decimal digit becomes its ASCII digit, and the text is cut at the first
    other code point, which becomes [?]. *)
Fixpoint transform_go (t : list N) : string :=
  match t with
  | [] => EmptyString
  | c :: r =>
      if (c <? 127)%N then String (ascii_of_N c) (transform_go r)
      else if isspace c then String " " (transform_go r)
      else
        match todecimal c with
        | Some d => String (ascii_of_N (48 + d)) (transform_go r)
        | None => "?"
        end
  end.

Definition transform (t : list N) : string :=
  if is_ascii t then narrow t else transform_go t.

(** [int(t, base)] on a text of code points. *)
Definition int (t : list N) (base : Z) : result Z :=
  Py.long_from_string base (transform t).

(** [RV32.decodeHex] on a text of code points: the same body. *)
Definition decodeHex (getOpcode : bitarray -> result bitarray)
    (self : RV32.t) (hex : list N) : result RVInstruction.t :=
  let* n := int hex 16 in
  let* ba0 := bitarray_of_str (Py.drop 2 (Py.bin n)) in
  let bstr := to01 ba0 in
  let size := 32%nat in
  let size := if negb (String.eqb (Py.last_chars 2 bstr) "11") then 16%nat else size in
  let bstr := Py.zfill bstr size in
  let* ba := bitarray_of_str bstr in
  RV32.decode getOpcode self ba.

End Database.

(** The code points of a string. *)
Definition codes (s : string) : list N :=
  map N_of_ascii (list_ascii_of_string s).

(** A fragment of the database: the white space from 127 up, and the
    Arabic-Indic and fullwidth digits. *)
Definition sample_isspace (c : N) : bool :=
  existsb (N.eqb c)
    [133; 160; 5760; 8192; 8193; 8194; 8195; 8196; 8197; 8198; 8199; 8200;
     8201; 8202; 8232; 8233; 8239; 8287; 12288]%N.

Definition sample_todecimal (c : N) : option N :=
  if ((1632 <=? c) && (c <=? 1641))%N then Some (c - 1632)%N
  else if ((65296 <=? c) && (c <=? 65305))%N then Some (c - 65296)%N
  else None.

End Unicode.

(** * Properties *)

(** ** Register names *)

(** The ABI names of the integer registers, in register order. *)
Definition abi_names : list string :=
  ["zero"; "ra"; "sp"; "gp"; "tp"; "t0"; "t1"; "t2"; "s0"; "s1";
   "a0"; "a1"; "a2"; "a3"; "a4"; "a5"; "a6"; "a7";
   "s2"; "s3"; "s4"; "s5"; "s6"; "s7"; "s8"; "s9"; "s10"; "s11";
   "t3"; "t4"; "t5"; "t6"].

(** The register id [x<n>]. *)
Definition xreg (n : nat) : string := "x" ++ Py.str_of_int (Z.of_nat n).

(** ** Vocabulary of the statements *)

Definition head_char (s : string) : option ascii :=
  match s with
  | String c _ => Some c
  | EmptyString => None
  end.

Fixpoint last_char (s : string) : option ascii :=
  match s with
  | EmptyString => None
  | String c EmptyString => Some c
  | String _ r => last_char r
  end.

(** The first (last) character of [s], if there is one, is not white space. *)
Definition starts_clean (s : string) : Prop :=
  forall c, head_char s = Some c -> Py.isspace c = false.

Definition ends_clean (s : string) : Prop :=
  forall c, last_char s = Some c -> Py.isspace c = false.

(** The names for which [__str__] writes [mnemonic parameters(base)]. *)
Definition base_layout_names : list string :=
  ["lb"; "lh"; "lw"; "lbu"; "lhu"; "sb"; "sh"; "sw"; "c.lw"; "c.sw";
   "c.lwsp"; "c.swsp"; "jalr"].

(** The comma-joined list of already printed parameters. *)
Definition joined (dest src : list string) (imm : list Z)
    (mask : list RVInstruction.pyval) : string :=
  Py.join "," (dest ++ src ++ map Py.str_of_int imm ++ map RVInstruction.str mask).

(** Every entry of the table reports the length of the bits it was given
    as the size of the instruction it builds. *)
Definition sized_entries
    (table : gmap bitarray (bitarray -> result RVInstruction.t)) : Prop :=
  forall key f ba i,
    table !! key = Some f -> f ba = Ok i ->
    RVInstruction.size i = Z.of_nat (length ba).

(** [c] occurs in [s]. *)
Definition occurs (c : ascii) (s : string) : Prop :=
  In c (list_ascii_of_string s).

(** The characters the parser of [int(s, 16)] can step over: hexadecimal
    digits, ASCII white space, a sign, the underscore and the [x] of the
    base marker. *)
Definition long16_char (c : ascii) : bool :=
  Py.is_digit 16 c || Py.isspace_ascii c
  || (Py.ord c =? 43) || (Py.ord c =? 45) || Py.is_underscore c
  || (Py.ord c =? 120) || (Py.ord c =? 88).

(** The characters [int(s, 16)] can accept somewhere in [s]: those above
    and the two white-space characters NEL and NBSP, which it turns into
    blanks. *)
Definition int16_char (c : ascii) : bool :=
  long16_char c || (Py.ord c =? 133) || (Py.ord c =? 160).

(** [s] holds a character the parser cannot step over. *)
Definition stuck (s : string) : Prop :=
  exists c, occurs c s /\ long16_char c = false.

(** The code points [int(t, 16)] cannot accept anywhere in a text, given
    the database: below 127 those the parser cannot step over (all but the
    hexadecimal digits, ASCII white space, the signs, the underscore and
    the x), from 127 up those that are neither white space nor a decimal
    digit. *)
Definition rejected16 (isspace : N -> bool) (todecimal : N -> option N)
    (c : N) : bool :=
  if (c <? 127)%N then negb (long16_char (ascii_of_N c))
  else negb (isspace c) && match todecimal c with Some _ => false | None => true end.

(** The database says of the code points 127..255 what holds of them:
    NEL and NBSP are white space and none is a decimal digit. *)
Definition latin1_database (isspace : N -> bool) (todecimal : N -> option N)
  : Prop :=
  forall c : ascii,
    (127 <= N_of_ascii c)%N ->
    isspace (N_of_ascii c) = Py.isspace c /\ todecimal (N_of_ascii c) = None.

(** The number a bit sequence denotes, most significant bit first. *)
Definition bits_value (ba : bitarray) : Z :=
  fold_left (fun acc (b : bool) => 2 * acc + (if b then 1 else 0)) ba 0.

(** The call returns. *)
Definition succeeds {A : Type} (r : result A) : Prop :=
  exists a, r = Ok a.

(** The names for which [__str__] takes the base from the source registers. *)
Definition base_register_names : list string :=
  ["lb"; "lh"; "lw"; "lbu"; "lhu"; "sb"; "sh"; "sw"; "c.lw"; "c.sw"; "jalr"].

(** The entry of an extension for [key], when the extension is enabled. *)
Definition entry_if (enabled : bool) (ext : Extension.t) (key : bitarray)
  : option (bitarray -> result RVInstruction.t) :=
  if enabled then Extension.instructionTable ext !! key else None.

(** The position of a name in the ABI table. *)
Fixpoint index_of (x : string) (l : list string) : option nat :=
  match l with
  | [] => None
  | y :: l' => if String.eqb x y then Some O else option_map S (index_of x l')
  end.

(** The binary digits of a positive number as bits, in front of [acc]. *)
Fixpoint bits_of_pos (p : positive) (acc : bitarray) : bitarray :=
  match p with
  | xH => true :: acc
  | xO q => bits_of_pos q (false :: acc)
  | xI q => bits_of_pos q (true :: acc)
  end.

(** The bits of the binary text of a number that is not negative. *)
Definition bits_of_Z (n : Z) : bitarray :=
  match n with
  | Z0 => [false]
  | Zpos p => bits_of_pos p []
  | Zneg _ => []
  end.

(** The width [decodeHex] selects for the value [n]. *)
Definition width_of (n : Z) : nat :=
  if n mod 4 =? 3 then 32%nat else 16%nat.

(** The first entry found, looking left to right. *)
Fixpoint first_entry {V : Type} (l : list (option V)) : option V :=
  match l with
  | [] => None
  | Some v :: _ => Some v
  | None :: l' => first_entry l'
  end.

(** C3: [get_print_name] maps every register id x0..x31 to its ABI name
    (x0 to zero, x1 to ra, x2 to sp, x3 to gp, x4 to tp, x5..x7 to t0..t2,
    x8 and x9 to s0 and s1, x10..x17 to a0..a7, x18..x27 to s2..s11,
    x28..x31 to t3..t6); in particular x0 gives zero, x10 gives a0 and x31
    gives t6. *)
Theorem get_print_name_abi (n : nat) :
  (n < 32)%nat ->
  RVInstruction.get_print_name (xreg n) = Ok (nth n abi_names "") /\
  RVInstruction.get_print_name "x0" = Ok "zero" /\
  RVInstruction.get_print_name "x10" = Ok "a0" /\
  RVInstruction.get_print_name "x31" = Ok "t6".
Proof.
  intros Hn.
  split; [| repeat split; reflexivity].
  do 32 (destruct n as [| n]; [vm_compute; reflexivity |]).
  lia.
Qed.

Lemma get_print_name_abi_witness :
  RVInstruction.get_print_name (xreg 18) = Ok (nth 18 abi_names "") /\
  RVInstruction.get_print_name "x0" = Ok "zero" /\
  RVInstruction.get_print_name "x10" = Ok "a0" /\
  RVInstruction.get_print_name "x31" = Ok "t6".
Proof. apply (get_print_name_abi 18). lia. Defined.

(** ** Classification *)

(** C7: an instruction named beq is a branch and a control transfer, and
    is not a jump. *)
Theorem beq_classification (i : RVInstruction.t) :
  RVInstruction.name i = "beq" ->
  RVInstruction.isBranch i = true /\
  RVInstruction.isControlTransfer i = true /\
  RVInstruction.isJump i = false.
Proof.
  intros Hname.
  unfold RVInstruction.isControlTransfer, RVInstruction.isBranch, RVInstruction.isJump.
  rewrite Hname. repeat split; reflexivity.
Qed.

Lemma beq_classification_witness :
  let i := Sample.instr "beq" [] ["x10"; "x11"] [8] in
  RVInstruction.isBranch i = true /\
  RVInstruction.isControlTransfer i = true /\
  RVInstruction.isJump i = false.
Proof. apply beq_classification. reflexivity. Defined.

(** ** Stripping and joining *)

Lemma append_cons (a : ascii) (s r : string) :
  String a s ++ r = String a (s ++ r).
Proof. reflexivity. Qed.

Lemma append_assoc (s r t : string) : (s ++ r) ++ t = s ++ r ++ t.
Proof.
  induction s as [| a s IH]; [reflexivity |].
  rewrite !append_cons, IH. reflexivity.
Qed.

Lemma append_length (s r : string) :
  String.length (s ++ r) = (String.length s + String.length r)%nat.
Proof.
  induction s as [| a s IH]; [reflexivity |].
  rewrite append_cons. simpl. rewrite IH. reflexivity.
Qed.

Lemma rstrip_ends_clean (s : string) :
  ends_clean s -> Py.rstrip_with Py.isspace s = s.
Proof.
  unfold ends_clean.
  induction s as [| a r IH]; intros Hlast; [reflexivity |].
  destruct r as [| b r'].
  - simpl. rewrite (Hlast a); reflexivity.
  - assert (Hr : Py.rstrip_with Py.isspace (String b r') = String b r').
    { apply IH. intros c Hc. apply Hlast. exact Hc. }
    change (Py.rstrip_with Py.isspace (String a (String b r')))
      with (match Py.rstrip_with Py.isspace (String b r') with
            | EmptyString => if Py.isspace a then EmptyString else String a EmptyString
            | r0 => String a r0
            end).
    rewrite Hr. reflexivity.
Qed.

Lemma rstrip_blank (s : string) :
  Py.rstrip_with Py.isspace (s ++ " ") = Py.rstrip_with Py.isspace s.
Proof.
  induction s as [| a r IH]; [reflexivity |].
  simpl. rewrite IH. reflexivity.
Qed.

Lemma lstrip_starts_clean (s : string) :
  starts_clean s -> Py.lstrip_with Py.isspace s = s.
Proof.
  unfold starts_clean. destruct s as [| a r]; intros Hhead; [reflexivity |].
  simpl. rewrite (Hhead a); reflexivity.
Qed.

Lemma strip_clean (s : string) :
  starts_clean s -> ends_clean s -> Py.strip s = s.
Proof.
  intros Hs He. unfold Py.strip.
  rewrite (lstrip_starts_clean s Hs). apply rstrip_ends_clean, He.
Qed.

Lemma last_char_app (s r : string) :
  r <> "" -> last_char (s ++ r) = last_char r.
Proof.
  intros Hr. induction s as [| a s IH]; [reflexivity |].
  simpl. rewrite IH.
  destruct (s ++ r) eqn:E; [| reflexivity].
  destruct s; [| discriminate]. change (r = "") in E. congruence.
Qed.

Lemma head_char_app (s r : string) :
  s <> "" -> head_char (s ++ r) = head_char s.
Proof. destruct s; [congruence | reflexivity]. Qed.

Lemma starts_clean_app (s r : string) :
  s <> "" -> starts_clean s -> starts_clean (s ++ r).
Proof.
  intros Hs H c. rewrite head_char_app by exact Hs. apply H.
Qed.

Lemma ends_clean_app (s r : string) :
  r <> "" -> ends_clean r -> ends_clean (s ++ r).
Proof.
  intros Hr H c. rewrite last_char_app by exact Hr. apply H.
Qed.

(** The text [name parameters(base)] has no white space to strip when the
    name starts with none. *)
Lemma strip_base_layout (name parameters base : string) :
  name <> "" -> starts_clean name ->
  Py.strip (name ++ " " ++ parameters ++ "(" ++ base ++ ")")
  = name ++ " " ++ parameters ++ "(" ++ base ++ ")".
Proof.
  intros Hne Hs. apply strip_clean.
  - apply starts_clean_app; assumption.
  - rewrite <- !append_assoc.
    apply ends_clean_app; [discriminate |].
    intros c Hc. simpl in Hc. injection Hc as <-. reflexivity.
Qed.

Lemma strip_plain_layout (name parameters : string) :
  name <> "" -> starts_clean name ->
  parameters <> "" -> ends_clean parameters ->
  Py.strip (name ++ " " ++ parameters) = name ++ " " ++ parameters.
Proof.
  intros Hne Hs Hp He. apply strip_clean.
  - apply starts_clean_app; assumption.
  - rewrite <- append_assoc. apply ends_clean_app; assumption.
Qed.

Lemma strip_no_parameters (name : string) :
  starts_clean name -> ends_clean name ->
  Py.strip (name ++ " " ++ "") = name.
Proof.
  intros Hs He. destruct name as [| a r]; [reflexivity |].
  unfold Py.strip.
  rewrite lstrip_starts_clean by (apply starts_clean_app; [discriminate | exact Hs]).
  change (String a r ++ " " ++ "") with (String a r ++ " ").
  rewrite rstrip_blank. apply rstrip_ends_clean, He.
Qed.

Lemma map_str_PStr (l : list string) :
  map RVInstruction.str (map RVInstruction.PStr l) = l.
Proof. induction l as [| x l IH]; simpl; [| rewrite IH]; reflexivity. Qed.

Lemma map_str_PInt (l : list Z) :
  map RVInstruction.str (map RVInstruction.PInt l) = map Py.str_of_int l.
Proof. induction l as [| x l IH]; simpl; [| rewrite IH]; reflexivity. Qed.

Lemma parameters_of_joined dest src imm mask :
  RVInstruction.parameters_of dest src imm mask = joined dest src imm mask.
Proof.
  unfold RVInstruction.parameters_of, joined.
  rewrite !map_app, !map_str_PStr, map_str_PInt. reflexivity.
Qed.

Lemma in_list_In (x : string) (l : list string) :
  RVInstruction.in_list x l = true <-> In x l.
Proof.
  unfold RVInstruction.in_list. rewrite existsb_exists. split.
  - intros [y [Hy E]]. apply String.eqb_eq in E. subst. exact Hy.
  - intros H. exists x. split; [exact H | apply String.eqb_refl].
Qed.

(** ** Rendering *)

Section Rendering.

Variable self : RVInstruction.t.
Variables dest src : list string.
Hypothesis Hdest :
  mapM RVInstruction.get_print_name (RVInstruction.dest_registers self) = Ok dest.
Hypothesis Hsrc :
  mapM RVInstruction.get_print_name (RVInstruction.src_registers self) = Ok src.

(** A name of the first list takes its base from the source registers. *)
Lemma str_base_register (base : string) (rest : list string) :
  In (RVInstruction.name self) ["lb"; "lh"; "lw"; "lbu"; "lhu"; "sb"; "sh"; "sw"; "c.lw"; "c.sw"; "jalr"] ->
  src = base :: rest ->
  RVInstruction.__str__ self
  = Ok (RVInstruction.name self ++ " "
        ++ joined dest rest (RVInstruction.immediates self) (RVInstruction.mask self)
        ++ "(" ++ base ++ ")").
Proof.
  set (name := RVInstruction.name self).
  intros Hin ->.
  assert (Hshape : name <> "" /\ starts_clean name /\
            RVInstruction.in_list name base_layout_names = true /\
            RVInstruction.in_list name ["c.lwsp"; "c.swsp"] = false).
  { simpl in Hin.
    repeat (destruct Hin as [<- | Hin];
            [repeat split; try discriminate; try reflexivity;
             intros c [= <-]; reflexivity |]).
    destruct Hin. }
  destruct Hshape as (Hne & Hclean & Hbase & Hsp).
  unfold RVInstruction.__str__, base_layout_names in *.
  rewrite Hdest, Hsrc. cbn [bind]. fold name. rewrite Hbase, Hsp.
  cbn [bind RVInstruction.first_of fst snd tail].
  rewrite parameters_of_joined.
  rewrite strip_base_layout by assumption. reflexivity.
Qed.

(** The two stack-pointer forms name [sp] and keep every source register
    in the list. *)
Lemma str_base_sp :
  In (RVInstruction.name self) ["c.lwsp"; "c.swsp"] ->
  RVInstruction.__str__ self
  = Ok (RVInstruction.name self ++ " "
        ++ joined dest src (RVInstruction.immediates self) (RVInstruction.mask self)
        ++ "(sp)").
Proof.
  set (name := RVInstruction.name self).
  intros Hin.
  assert (Hshape : name <> "" /\ starts_clean name /\
            RVInstruction.in_list name base_layout_names = true /\
            RVInstruction.in_list name ["c.lwsp"; "c.swsp"] = true).
  { simpl in Hin.
    repeat (destruct Hin as [<- | Hin];
            [repeat split; try discriminate; try reflexivity;
             intros c [= <-]; reflexivity |]).
    destruct Hin. }
  destruct Hshape as (Hne & Hclean & Hbase & Hsp).
  unfold RVInstruction.__str__, base_layout_names in *.
  rewrite Hdest, Hsrc. cbn [bind]. fold name. rewrite Hbase, Hsp.
  cbn [bind fst snd].
  rewrite parameters_of_joined.
  rewrite strip_base_layout by assumption. reflexivity.
Qed.

(** Any other name: the mnemonic, a blank and the list, then stripped. *)
Lemma str_plain :
  RVInstruction.in_list (RVInstruction.name self) base_layout_names = false ->
  RVInstruction.__str__ self
  = Ok (Py.strip (RVInstruction.name self ++ " "
                  ++ joined dest src (RVInstruction.immediates self)
                       (RVInstruction.mask self))).
Proof.
  set (name := RVInstruction.name self).
  intros Hbase.
  unfold RVInstruction.__str__, base_layout_names in *.
  rewrite Hdest, Hsrc. cbn [bind]. fold name. rewrite Hbase.
  rewrite parameters_of_joined. reflexivity.
Qed.

End Rendering.

Lemma mapM_cons_ok {A B : Type} (f : A -> result B) x l y ys :
  f x = Ok y -> mapM f l = Ok ys -> mapM f (x :: l) = Ok (y :: ys).
Proof. intros Hx Hl. simpl. rewrite Hx. simpl. rewrite Hl. reflexivity. Qed.

(** C10: an instruction named jalr is rendered as [jalr parameters(base)],
    the base being its first source register under its print name and the
    parameters the destination registers, the remaining source registers,
    the immediates and the mask; jalr is neither a load nor a store. *)
Theorem jalr_base_layout (self : RVInstruction.t)
    (r : string) (rs dest rest : list string) (base : string) :
  RVInstruction.name self = "jalr" ->
  RVInstruction.src_registers self = r :: rs ->
  mapM RVInstruction.get_print_name (RVInstruction.dest_registers self) = Ok dest ->
  RVInstruction.get_print_name r = Ok base ->
  mapM RVInstruction.get_print_name rs = Ok rest ->
  RVInstruction.__str__ self
  = Ok ("jalr" ++ " "
        ++ joined dest rest (RVInstruction.immediates self) (RVInstruction.mask self)
        ++ "(" ++ base ++ ")") /\
  RVInstruction.isLoad self = false /\
  RVInstruction.isStore self = false /\
  RVInstruction.isMemAccess self = false.
Proof.
  intros Hname Hsrc Hdest Hbase Hrest.
  split.
  - rewrite <- Hname.
    apply (str_base_register self dest (base :: rest)); trivial.
    + rewrite Hsrc. apply mapM_cons_ok; assumption.
    + rewrite Hname. simpl. tauto.
  - unfold RVInstruction.isMemAccess, RVInstruction.isLoad, RVInstruction.isStore.
    rewrite Hname. repeat split; reflexivity.
Qed.

Lemma jalr_base_layout_witness :
  let i := Sample.instr "jalr" ["x0"] ["x1"] [0] in
  RVInstruction.__str__ i = Ok "jalr zero,0(ra)" /\
  RVInstruction.isLoad i = false /\
  RVInstruction.isStore i = false /\
  RVInstruction.isMemAccess i = false.
Proof.
  exact (jalr_base_layout (Sample.instr "jalr" ["x0"] ["x1"] [0])
           "x1" [] ["zero"] [] "ra"
           eq_refl eq_refl eq_refl eq_refl eq_refl).
Defined.

(** C4, as the claim states it, fails: jalr is not a memory access and is
    rendered with a base, and ld is a load and is rendered plainly. *)
Lemma memory_layout_counterexample :
  let j := Sample.instr "jalr" ["x0"] ["x1"] [0] in
  let l := Sample.instr "ld" ["x10"] ["x2"] [8] in
  (RVInstruction.isMemAccess j = false /\
   RVInstruction.__str__ j = Ok "jalr zero,0(ra)" /\
   RVInstruction.__str__ j <> Ok "jalr zero,ra,0") /\
  (RVInstruction.isMemAccess l = true /\
   RVInstruction.isLoad l = true /\
   RVInstruction.__str__ l = Ok "ld a0,sp,8" /\
   RVInstruction.__str__ l <> Ok "ld a0,8(sp)").
Proof. vm_compute. repeat split; discriminate. Qed.

(** C4, amended: an instruction named lb, lh, lw, lbu, lhu, sb, sh, sw,
    c.lw or c.sw is rendered as [mnemonic parameters(base)] with its first
    source register as base; c.lwsp and c.swsp are rendered with [sp] as
    base; an instruction that is neither a load nor a store nor jalr is
    rendered in the plain layout, the mnemonic, a blank and the
    comma-joined parameters, stripped. *)
Theorem memory_layout (self : RVInstruction.t) (dest src : list string) :
  mapM RVInstruction.get_print_name (RVInstruction.dest_registers self) = Ok dest ->
  mapM RVInstruction.get_print_name (RVInstruction.src_registers self) = Ok src ->
  let name := RVInstruction.name self in
  let imm := RVInstruction.immediates self in
  let mask := RVInstruction.mask self in
  (In name ["lb"; "lh"; "lw"; "lbu"; "lhu"; "sb"; "sh"; "sw"; "c.lw"; "c.sw"] ->
   forall base rest, src = base :: rest ->
     RVInstruction.isMemAccess self = true /\
     RVInstruction.__str__ self
     = Ok (name ++ " " ++ joined dest rest imm mask ++ "(" ++ base ++ ")")) /\
  (In name ["c.lwsp"; "c.swsp"] ->
     RVInstruction.isMemAccess self = true /\
     RVInstruction.__str__ self
     = Ok (name ++ " " ++ joined dest src imm mask ++ "(sp)")) /\
  (RVInstruction.isMemAccess self = false -> name <> "jalr" ->
     RVInstruction.__str__ self
     = Ok (Py.strip (name ++ " " ++ joined dest src imm mask))).
Proof.
  intros Hdest Hsrc name imm mask.
  split; [| split].
  - intros Hin base rest Hsplit. split.
    + unfold RVInstruction.isMemAccess, RVInstruction.isLoad, RVInstruction.isStore.
      fold name. simpl in Hin.
      repeat (destruct Hin as [<- | Hin]; [reflexivity |]). destruct Hin.
    + apply (str_base_register self dest src Hdest Hsrc base rest); [| exact Hsplit].
      fold name. simpl in Hin |- *. tauto.
  - intros Hin. split.
    + unfold RVInstruction.isMemAccess, RVInstruction.isLoad, RVInstruction.isStore.
      fold name. simpl in Hin.
      repeat (destruct Hin as [<- | Hin]; [reflexivity |]). destruct Hin.
    + apply (str_base_sp self dest src Hdest Hsrc Hin).
  - intros Hmem Hjalr.
    apply (str_plain self dest src Hdest Hsrc).
    destruct (RVInstruction.in_list (RVInstruction.name self) base_layout_names) eqn:E;
      [| reflexivity].
    exfalso. apply in_list_In in E. fold name in E, Hmem.
    unfold RVInstruction.isMemAccess, RVInstruction.isLoad, RVInstruction.isStore in Hmem.
    fold name in Hmem. simpl in E.
    repeat (destruct E as [E | E];
            [first [ apply Hjalr; symmetry; exact E
                   | rewrite <- E in Hmem; discriminate Hmem ] |]).
    destruct E.
Qed.

Lemma memory_layout_witness :
  RVInstruction.__str__ (Sample.instr "sw" [] ["x2"; "x10"] [-4]) = Ok "sw a0,-4(sp)" /\
  RVInstruction.__str__ (Sample.instr "c.lwsp" ["x10"] [] [4]) = Ok "c.lwsp a0,4(sp)" /\
  RVInstruction.__str__ (Sample.instr "addi" ["x5"] ["x10"] [0]) = Ok "addi t0,a0,0".
Proof.
  split; [| split].
  - refine (proj2 (proj1 (memory_layout (Sample.instr "sw" [] ["x2"; "x10"] [-4])
                            [] ["sp"; "a0"] eq_refl eq_refl) _ "sp" ["a0"] eq_refl)).
    simpl. tauto.
  - refine (proj2 (proj1 (proj2 (memory_layout (Sample.instr "c.lwsp" ["x10"] [] [4])
                                   ["a0"] [] eq_refl eq_refl)) _)).
    simpl. tauto.
  - refine (proj2 (proj2 (memory_layout (Sample.instr "addi" ["x5"] ["x10"] [0])
                            ["t0"] ["a0"] eq_refl eq_refl)) eq_refl _).
    discriminate.
Defined.

(** C9, as the claim states it, fails: an instruction without parameters
    is rendered as its mnemonic alone, with no blank after it. *)
Lemma plain_layout_counterexample :
  let i := Sample.instr "ecall" [] [] [] in
  RVInstruction.in_list (RVInstruction.name i) base_layout_names = false /\
  joined [] [] (RVInstruction.immediates i) (RVInstruction.mask i) = "" /\
  RVInstruction.__str__ i = Ok "ecall" /\
  RVInstruction.__str__ i <> Ok ("ecall" ++ " " ++ "").
Proof. vm_compute. repeat split; discriminate. Qed.

(** C9, amended: for an instruction outside the base layout the rendered
    string is the mnemonic, a blank and the comma-joined list of the
    destination registers, the source registers (both under their print
    names), the immediates and the mask fields, in that order, with the
    white space at both ends stripped.  With a non-empty list that does not
    end in white space this is exactly the mnemonic, one blank and the
    list; with no parameters it is the mnemonic alone. *)
Theorem plain_layout (self : RVInstruction.t) (dest src : list string) :
  RVInstruction.in_list (RVInstruction.name self) base_layout_names = false ->
  mapM RVInstruction.get_print_name (RVInstruction.dest_registers self) = Ok dest ->
  mapM RVInstruction.get_print_name (RVInstruction.src_registers self) = Ok src ->
  let name := RVInstruction.name self in
  let parameters :=
    Py.join "," (dest ++ src ++ map Py.str_of_int (RVInstruction.immediates self)
                 ++ map RVInstruction.str (RVInstruction.mask self)) in
  RVInstruction.__str__ self = Ok (Py.strip (name ++ " " ++ parameters)) /\
  (name <> "" -> starts_clean name -> parameters <> "" -> ends_clean parameters ->
   RVInstruction.__str__ self = Ok (name ++ " " ++ parameters)) /\
  (starts_clean name -> ends_clean name -> parameters = "" ->
   RVInstruction.__str__ self = Ok name).
Proof.
  intros Hplain Hdest Hsrc name parameters.
  pose proof (str_plain self dest src Hdest Hsrc Hplain) as Hstr.
  fold name in Hstr. change (joined dest src _ _) with parameters in Hstr.
  split; [exact Hstr | split].
  - intros Hne Hs Hp He. rewrite Hstr, strip_plain_layout by assumption. reflexivity.
  - intros Hs He Hp. rewrite Hstr, Hp, strip_no_parameters by assumption. reflexivity.
Qed.

Lemma plain_layout_witness :
  RVInstruction.__str__ (Sample.instr "addi" ["x5"] ["x10"] [-1]) = Ok "addi t0,a0,-1" /\
  RVInstruction.__str__ (Sample.instr "ecall" [] [] []) = Ok "ecall".
Proof.
  split.
  - refine (proj1 (proj2 (plain_layout (Sample.instr "addi" ["x5"] ["x10"] [-1])
                            ["t0"] ["a0"] eq_refl eq_refl eq_refl)) _ _ _ _).
    + discriminate.
    + intros c [= <-]. reflexivity.
    + discriminate.
    + intros c [= <-]. reflexivity.
  - refine (proj2 (proj2 (plain_layout (Sample.instr "ecall" [] [] [])
                            [] [] eq_refl eq_refl eq_refl)) _ _ eq_refl).
    + intros c [= <-]. reflexivity.
    + intros c [= <-]. reflexivity.
Defined.

(** ** The Instruction value *)

(** C8, as the claim states it, fails: the constructor accepts a size
    without a matching binary. *)
Lemma size_binary_counterexample :
  let i := RVInstruction.__init__ None None None None None (Some "addi") (Some 32) None None in
  RVInstruction.size i = 32 /\
  RVInstruction.binary i = "" /\
  RVInstruction.size i <> Z.of_nat (String.length (RVInstruction.binary i)).
Proof. vm_compute. repeat split; discriminate. Qed.

(** C8, amended: the constructor stores the size and the binary it is
    given, 0 and the empty text when they are omitted, so the size of a new
    instruction equals the length of its binary exactly when the arguments
    agree, as the two defaults do; [decode] returns the instruction built
    by the table entry of the opcode key, and [decodeHex] the one [decode]
    returns, as they are. *)
Theorem size_binary_as_given
    (rv_format : option string)
    (rv_src_registers rv_dest_registers : option (list string))
    (rv_immediates : option (list Z))
    (rv_mask : option (list RVInstruction.pyval))
    (rv_name : option string) (rv_size : option Z)
    (rv_binary : option string) (rv_freq : option Z) :
  let i := RVInstruction.__init__ rv_format rv_src_registers rv_dest_registers
             rv_immediates rv_mask rv_name rv_size rv_binary rv_freq in
  let d := RVInstruction.__init__ rv_format rv_src_registers rv_dest_registers
             rv_immediates rv_mask rv_name None None rv_freq in
  RVInstruction.size i = RVInstruction.or_default rv_size 0 /\
  RVInstruction.binary i = RVInstruction.or_default rv_binary "" /\
  (RVInstruction.size i = Z.of_nat (String.length (RVInstruction.binary i)) <->
   RVInstruction.or_default rv_size 0
   = Z.of_nat (String.length (RVInstruction.or_default rv_binary ""))) /\
  RVInstruction.size d = Z.of_nat (String.length (RVInstruction.binary d)) /\
  (forall getOpcode self ba r,
     RV32.decode getOpcode self ba = Ok r ->
     exists key f,
       getOpcode ba = Ok key /\ RV32.instructionTable self !! key = Some f /\
       f ba = Ok r) /\
  (forall getOpcode self hex r,
     RV32.decodeHex getOpcode self hex = Ok r ->
     exists ba, RV32.decode getOpcode self ba = Ok r).
Proof.
  intros i d. repeat split; try tauto.
  - intros getOpcode self ba r. unfold RV32.decode.
    destruct (getOpcode ba) as [key |] eqn:Hkey; [| discriminate].
    cbn [bind].
    destruct (RV32.instructionTable self !! key) as [f |] eqn:Hf; [| discriminate].
    intros Hr. exists key, f. auto.
  - intros getOpcode self hex r. unfold RV32.decodeHex.
    destruct (Py.int hex 16) as [n |]; [| discriminate]. cbn [bind].
    destruct (bitarray_of_str (Py.drop 2 (Py.bin n))) as [ba0 |]; [| discriminate].
    cbn [bind].
    destruct (bitarray_of_str _) as [ba |]; [| discriminate].
    cbn [bind]. intros Hr. exists ba. exact Hr.
Qed.

Lemma size_binary_as_given_witness :
  exists key f,
    Sample.getOpcode (replicate 25 false ++ Sample.OP_IMM)%list = Ok key /\
    RV32.instructionTable (Sample.rv "32I") !! key = Some f /\
    f (replicate 25 false ++ Sample.OP_IMM)%list
    = Sample.decode "32I" (replicate 25 false ++ Sample.OP_IMM)%list.
Proof.
  destruct (Sample.decode "32I" (replicate 25 false ++ Sample.OP_IMM)%list) as [r |] eqn:E;
    [| discriminate E].
  exact (proj1 (proj2 (proj2 (proj2 (proj2
           (size_binary_as_given None None None None None None
              (Some 16) (Some "0000000000000001") None)))))
           Sample.getOpcode (Sample.rv "32I")
           (replicate 25 false ++ Sample.OP_IMM)%list r E).
Defined.

(** ** The facade *)

Lemma init_32I_table (I32 M32 V32 C32 : Extension.t) :
  RV32.instructionTable (RV32.__init__ I32 M32 V32 C32 "32I")
  = Extension.instructionTable I32.
Proof.
  unfold RV32.__init__.
  change (Py.contains "32I" "32I") with true.
  change (Py.contains "M" "32I") with false.
  change (Py.contains "V" "32I") with false.
  change (Py.contains "C" "32I") with false.
  cbn [RV32.instructionTable]. unfold RV32.update.
  apply (right_id_L ∅ (∪)).
Qed.

(** C2, as the claim states it, fails: a decoder built for 32I and given a
    vector encoding raises the [KeyError] of the dictionary lookup, not an
    UnsupportedOpcodeError. *)
Lemma unsupported_opcode_counterexample :
  let ba := (replicate 25 false ++ Sample.OP_V)%list in
  Sample.getOpcode ba = Ok Sample.OP_V /\
  RV32.instructionTable (Sample.rv "32I") !! Sample.OP_V = None /\
  Sample.decode "32I" ba = Raise KeyError /\
  Sample.decode "32I" ba <> Raise (Custom "UnsupportedOpcodeError").
Proof. vm_compute. repeat split; discriminate. Qed.

(** C2, amended: for every bit sequence whose opcode key has no entry in
    the instruction table of the configuration, [decode] raises the
    built-in [KeyError] of the dictionary lookup; a decoder built for 32I
    alone has the table of the base extension, so it raises [KeyError] on
    every key that table lacks. *)
Theorem decode_missing_key
    (getOpcode : bitarray -> result bitarray) (ba key : bitarray) :
  getOpcode ba = Ok key ->
  (forall self : RV32.t,
     RV32.instructionTable self !! key = None ->
     RV32.decode getOpcode self ba = Raise KeyError) /\
  (forall I32 M32 V32 C32 : Extension.t,
     Extension.instructionTable I32 !! key = None ->
     RV32.decode getOpcode (RV32.__init__ I32 M32 V32 C32 "32I") ba = Raise KeyError).
Proof.
  intros Hkey.
  assert (Hgen : forall self : RV32.t,
            RV32.instructionTable self !! key = None ->
            RV32.decode getOpcode self ba = Raise KeyError).
  { intros self Hnone. unfold RV32.decode. rewrite Hkey. cbn [bind].
    rewrite Hnone. reflexivity. }
  split; [exact Hgen |].
  intros I32 M32 V32 C32 Hnone. apply Hgen.
  rewrite init_32I_table. exact Hnone.
Qed.

Lemma decode_missing_key_witness :
  Sample.decode "32I" (replicate 25 false ++ Sample.OP_V)%list = Raise KeyError.
Proof.
  refine (proj2 (decode_missing_key Sample.getOpcode
                   (replicate 25 false ++ Sample.OP_V)%list Sample.OP_V eq_refl)
            Sample.I32 Sample.M32 Sample.V32 Sample.C32 _).
  vm_compute. reflexivity.
Defined.

(** ** Hexadecimal input *)

Lemma occurs_cons (c a : ascii) (r : string) :
  occurs c (String a r) <-> a = c \/ occurs c r.
Proof. reflexivity. Qed.

Lemma stuck_tail (a : ascii) (r : string) :
  long16_char a = true -> stuck (String a r) -> stuck r.
Proof.
  intros Ha (c & Hc & Hbad). apply occurs_cons in Hc as [-> | Hc].
  - congruence.
  - exists c. auto.
Qed.

Lemma stuck_not_empty (s : string) : stuck s -> s <> "".
Proof. intros (c & Hc & _) ->. exact Hc. Qed.

Lemma space_long16 (a : ascii) : Py.isspace_ascii a = true -> long16_char a = true.
Proof. unfold long16_char. intros ->. rewrite orb_true_r. reflexivity. Qed.

Lemma underscore_long16 (a : ascii) : Py.is_underscore a = true -> long16_char a = true.
Proof. unfold long16_char. intros ->. rewrite !orb_true_r. reflexivity. Qed.

Lemma lstrip_stuck (s : string) :
  stuck s -> stuck (Py.lstrip_with Py.isspace_ascii s).
Proof.
  induction s as [| a r IH]; intros H; [exact H |].
  simpl. destruct (Py.isspace_ascii a) eqn:Ha; [| exact H].
  apply IH, (stuck_tail a); [apply space_long16, Ha | exact H].
Qed.

Lemma skip_sign_stuck (s : string) : stuck s -> stuck (snd (Py.skip_sign s)).
Proof.
  intros H. destruct s as [| a r]; [exact H |].
  unfold Py.skip_sign.
  destruct (Ascii.eqb_spec a "+") as [-> |];
    [apply (stuck_tail "+"); [reflexivity | exact H] |].
  destruct (Ascii.eqb_spec a "-") as [-> |];
    [apply (stuck_tail "-"); [reflexivity | exact H] |].
  destruct a as [[] [] [] [] [] [] [] []]; try exact H; congruence.
Qed.

Lemma skip_prefix_stuck (s : string) : stuck s -> stuck (Py.skip_prefix 16 s).
Proof.
  intros H. unfold Py.skip_prefix. change (16 =? 16) with true. cbv iota.
  destruct s as [| a r]; [exact H |].
  destruct (Ascii.eqb_spec a "0") as [-> |].
  - destruct r as [| c r]; [exact H |].
    destruct ((Py.ord c =? 120) || (Py.ord c =? 88)) eqn:Hx; [| exact H].
    assert (Hr : stuck r).
    { apply (stuck_tail c).
      - unfold long16_char. apply orb_true_iff in Hx as [-> | ->];
          rewrite ?orb_true_r; reflexivity.
      - apply (stuck_tail "0"); [reflexivity | exact H]. }
    destruct r as [| u r']; [exact Hr |].
    destruct (Ascii.eqb_spec u "_") as [-> |].
    + apply (stuck_tail "_"); [reflexivity | exact Hr].
    + destruct u as [[] [] [] [] [] [] [] []]; try exact Hr; congruence.
  - destruct a as [[] [] [] [] [] [] [] []]; try exact H; congruence.
Qed.

Lemma scan_digits_stuck (s : string) :
  forall prev acc n v n' rest,
    stuck s -> Py.scan_digits 16 prev acc n s = Some (v, n', rest) -> stuck rest.
Proof.
  induction s as [| a r IH]; intros prev acc n v n' rest H Hscan.
  - destruct (stuck_not_empty _ H eq_refl).
  - simpl in Hscan.
    destruct (Py.is_underscore a) eqn:Hu.
    { destruct prev; [discriminate |].
      eapply IH; [| exact Hscan].
      apply (stuck_tail a); [apply underscore_long16, Hu | exact H]. }
    destruct (Py.digit_value a) as [d |] eqn:Hd.
    + destruct (d <? 16) eqn:Hlt.
      * eapply IH; [| exact Hscan].
        apply (stuck_tail a); [| exact H].
        unfold long16_char, Py.is_digit. rewrite Hd, Hlt. reflexivity.
      * destruct prev; [discriminate |]. injection Hscan as _ _ <-. exact H.
    + destruct prev; [discriminate |]. injection Hscan as _ _ <-. exact H.
Qed.

Lemma long_from_string_stuck (s : string) :
  stuck s -> Py.long_from_string 16 s = Raise ValueError.
Proof.
  intros H. unfold Py.long_from_string.
  pose proof (skip_sign_stuck _ (lstrip_stuck _ H)) as H1.
  destruct (Py.skip_sign (Py.lstrip_with Py.isspace_ascii s)) as [sign s1].
  cbn [snd] in H1. apply skip_prefix_stuck in H1.
  destruct (Py.starts_with_underscore (Py.skip_prefix 16 s1)); [reflexivity |].
  destruct (Py.scan_digits 16 false 0 0 (Py.skip_prefix 16 s1))
    as [[[v n] rest] |] eqn:Hscan; [| reflexivity].
  pose proof (lstrip_stuck _ (scan_digits_stuck _ _ _ _ _ _ _ H1 Hscan)) as H2.
  apply stuck_not_empty in H2.
  destruct n; [reflexivity |].
  destruct (Py.lstrip_with Py.isspace_ascii rest); [congruence | reflexivity].
Qed.

Lemma high_space_int16 (a : ascii) :
  (Py.ord a <? 127) = false -> Py.isspace a = true -> int16_char a = true.
Proof. destruct a as [[] [] [] [] [] [] [] []]; vm_compute; congruence. Qed.

Lemma transform_go_stuck (s : string) (c : ascii) :
  occurs c s -> int16_char c = false -> stuck (Py.transform_go s).
Proof.
  intros Hc Hbad. induction s as [| a r IH]; [destruct Hc |].
  simpl. apply occurs_cons in Hc.
  destruct (Py.ord a <? 127) eqn:Hlow.
  - destruct Hc as [-> | Hc].
    + exists c. split; [left; reflexivity |].
      unfold int16_char in Hbad. apply orb_false_iff in Hbad as [Hbad _].
      apply orb_false_iff in Hbad as [Hbad _]. exact Hbad.
    + destruct (IH Hc) as (c' & Hc' & Hbad'). exists c'. split; [right |]; assumption.
  - destruct (Py.isspace a) eqn:Hsp.
    + destruct Hc as [-> | Hc].
      * rewrite (high_space_int16 c Hlow Hsp) in Hbad. discriminate.
      * destruct (IH Hc) as (c' & Hc' & Hbad'). exists c'. split; [right |]; assumption.
    + exists "?"%char. split; [left |]; reflexivity.
Qed.

Lemma transform_stuck (s : string) (c : ascii) :
  occurs c s -> int16_char c = false -> stuck (Py.transform s).
Proof.
  intros Hc Hbad. unfold Py.transform. destruct (Py.is_ascii s).
  - exists c. split; [exact Hc |].
    unfold int16_char in Hbad. apply orb_false_iff in Hbad as [Hbad _].
    apply orb_false_iff in Hbad as [Hbad _]. exact Hbad.
  - apply (transform_go_stuck s c); assumption.
Qed.

Lemma bitarray_of_negative (p : positive) :
  bitarray_of_str (Py.drop 2 (Py.bin (Zneg p))) = Raise ValueError.
Proof. reflexivity. Qed.

(** C6, as the claim states it, fails: the error raised on a character
    that is no hexadecimal digit is the built-in [ValueError], and input
    with white space around the digits is decoded. *)
Lemma malformed_hex_counterexample :
  (occurs "z" "zz" /\ Py.is_digit 16 "z" = false /\
   Sample.decodeHex "32I" "zz" = Raise ValueError /\
   Sample.decodeHex "32I" "zz" <> Raise (Custom "MalformedHexError")) /\
  (occurs " " " 00050293" /\ Py.is_digit 16 " " = false /\
   Sample.decodeHex "32I" " 00050293" = Sample.decodeHex "32I" "00050293" /\
   exists i, Sample.decodeHex "32I" " 00050293" = Ok i).
Proof.
  split; [vm_compute; repeat split; try tauto; discriminate |].
  repeat split; try (vm_compute; tauto).
  eexists. vm_compute. reflexivity.
Qed.

(** On a text of code points below 256: a character other than a
    hexadecimal digit, the white space [int] strips, a sign, an underscore
    or the x of the base marker makes [decodeHex] raise [ValueError], and so
    does a text [int] reads as a negative number. *)
Lemma decodeHex_value_error
    (getOpcode : bitarray -> result bitarray) (self : RV32.t) (hex : string) :
  (forall c, occurs c hex -> int16_char c = false ->
     RV32.decodeHex getOpcode self hex = Raise ValueError) /\
  (forall n, Py.int hex 16 = Ok n -> n < 0 ->
     RV32.decodeHex getOpcode self hex = Raise ValueError).
Proof.
  split.
  - intros c Hc Hbad. unfold RV32.decodeHex, Py.int.
    rewrite (long_from_string_stuck _ (transform_stuck hex c Hc Hbad)).
    reflexivity.
  - intros n Hn Hneg. unfold RV32.decodeHex. rewrite Hn. cbn [bind].
    destruct n as [| p | p]; try lia.
    rewrite bitarray_of_negative. reflexivity.
Qed.

Lemma decodeHex_value_error_witness :
  Sample.decodeHex "32I" "0x0005029g" = Raise ValueError /\
  Sample.decodeHex "32I" "-13" = Raise ValueError.
Proof.
  split.
  - refine (proj1 (decodeHex_value_error Sample.getOpcode (Sample.rv "32I") "0x0005029g")
              "g"%char _ eq_refl).
    vm_compute. tauto.
  - refine (proj2 (decodeHex_value_error Sample.getOpcode (Sample.rv "32I") "-13")
              (-19) eq_refl _).
    lia.
Defined.

(** ** Hexadecimal input of arbitrary code points *)

Lemma stuck_cons (a : ascii) (r : string) : stuck r -> stuck (String a r).
Proof. intros (c & Hc & Hbad). exists c. split; [right |]; assumption. Qed.

Lemma stuck_head (a : ascii) (r : string) :
  long16_char a = false -> stuck (String a r).
Proof. intros Ha. exists a. split; [left; reflexivity | exact Ha]. Qed.

Lemma narrow_stuck (t : list N) (c : N) :
  In c t -> long16_char (ascii_of_N c) = false -> stuck (Unicode.narrow t).
Proof.
  intros Hc Hbad. induction t as [| a r IH]; [destruct Hc |].
  simpl. destruct Hc as [-> | Hc].
  - apply stuck_head, Hbad.
  - apply stuck_cons, IH, Hc.
Qed.

Section UnicodeDatabase.

Variable isspace : N -> bool.
Variable todecimal : N -> option N.

Lemma rejected16_low (c : N) :
  (c < 128)%N -> rejected16 isspace todecimal c = true ->
  long16_char (ascii_of_N c) = false.
Proof.
  intros Hc. unfold rejected16.
  destruct (N.ltb_spec c 127) as [_ | Hge].
  - intros H. apply negb_true_iff in H. exact H.
  - intros _. replace c with 127%N by lia. reflexivity.
Qed.

Lemma transform_go_rejected (t : list N) (c : N) :
  In c t -> rejected16 isspace todecimal c = true ->
  stuck (Unicode.transform_go isspace todecimal t).
Proof.
  intros Hc Hbad. induction t as [| a r IH]; [destruct Hc |].
  simpl. destruct (N.ltb_spec a 127) as [Hlow | Hhigh].
  - destruct Hc as [-> | Hc]; [| apply stuck_cons, IH, Hc].
    apply stuck_head, rejected16_low; [lia | exact Hbad].
  - assert (Hrest : a <> c -> stuck (Unicode.transform_go isspace todecimal r)).
    { intros Hne. apply IH. destruct Hc as [E | Hc]; [contradiction | exact Hc]. }
    assert (Hself : a = c ->
              isspace a = false /\ todecimal a = None).
    { intros ->. unfold rejected16 in Hbad.
      destruct (N.ltb_spec c 127); [lia |].
      apply andb_true_iff in Hbad as [Hsp Hdec].
      apply negb_true_iff in Hsp.
      destruct (todecimal c); [discriminate Hdec | auto]. }
    destruct (isspace a) eqn:Hsp.
    + apply stuck_cons, Hrest. intros E. destruct (Hself E). congruence.
    + destruct (todecimal a) eqn:Hdec.
      * apply stuck_cons, Hrest. intros E. destruct (Hself E). congruence.
      * apply stuck_head. reflexivity.
Qed.

Lemma transform_rejected (t : list N) (c : N) :
  In c t -> rejected16 isspace todecimal c = true ->
  stuck (Unicode.transform isspace todecimal t).
Proof.
  intros Hc Hbad. unfold Unicode.transform.
  destruct (Unicode.is_ascii t) eqn:Hascii.
  - apply (narrow_stuck t c Hc). apply rejected16_low; [| exact Hbad].
    unfold Unicode.is_ascii in Hascii. rewrite forallb_forall in Hascii.
    apply N.ltb_lt, Hascii, Hc.
  - apply (transform_go_rejected t c Hc Hbad).
Qed.

Lemma narrow_codes (s : string) : Unicode.narrow (Unicode.codes s) = s.
Proof.
  induction s as [| a r IH]; [reflexivity |].
  unfold Unicode.codes in *. simpl. rewrite ascii_N_embedding, IH. reflexivity.
Qed.

Lemma is_ascii_codes (s : string) :
  Unicode.is_ascii (Unicode.codes s) = Py.is_ascii s.
Proof.
  unfold Unicode.is_ascii, Py.is_ascii, Unicode.codes.
  induction (list_ascii_of_string s) as [| a r IH]; [reflexivity |].
  simpl. rewrite IH. f_equal. unfold Py.ord.
  destruct (N.ltb_spec (N_of_ascii a) 128), (Z.ltb_spec (Z.of_N (N_of_ascii a)) 128);
    try reflexivity; lia.
Qed.

Lemma transform_go_codes (s : string) :
  latin1_database isspace todecimal ->
  Unicode.transform_go isspace todecimal (Unicode.codes s) = Py.transform_go s.
Proof.
  intros Hdb. induction s as [| a r IH]; [reflexivity |].
  unfold Unicode.codes in *. simpl. rewrite ascii_N_embedding, IH. unfold Py.ord.
  destruct (N.ltb_spec (N_of_ascii a) 127) as [Hlow | Hhigh],
    (Z.ltb_spec (Z.of_N (N_of_ascii a)) 127); try lia; [reflexivity |].
  destruct (Hdb a Hhigh) as [-> ->]. reflexivity.
Qed.

Lemma decodeHex_codes
    (getOpcode : bitarray -> result bitarray) (self : RV32.t) (s : string) :
  latin1_database isspace todecimal ->
  Unicode.decodeHex isspace todecimal getOpcode self (Unicode.codes s)
  = RV32.decodeHex getOpcode self s.
Proof.
  intros Hdb. unfold Unicode.decodeHex, RV32.decodeHex, Unicode.int, Py.int,
    Unicode.transform, Py.transform.
  rewrite is_ascii_codes, narrow_codes, (transform_go_codes s Hdb). reflexivity.
Qed.

(** C6, amended: for every input text that contains a character other
    than a hexadecimal digit, a Unicode decimal digit, the white space
    [int] accepts (the ASCII white space it strips and the Unicode white
    space from code point 127 up), a sign, an underscore or the x of the
    base marker, [decodeHex] raises the built-in [ValueError]; so it does
    for every text [int] reads as a negative number.  On a text of code
    points below 256 this is the [decodeHex] of the other statements. *)
Theorem decodeHex_text_value_error
    (getOpcode : bitarray -> result bitarray) (self : RV32.t) (hex : list N) :
  (forall c, In c hex -> rejected16 isspace todecimal c = true ->
     Unicode.decodeHex isspace todecimal getOpcode self hex = Raise ValueError) /\
  (forall n, Unicode.int isspace todecimal hex 16 = Ok n -> n < 0 ->
     Unicode.decodeHex isspace todecimal getOpcode self hex = Raise ValueError) /\
  (latin1_database isspace todecimal ->
   forall s, hex = Unicode.codes s ->
     Unicode.decodeHex isspace todecimal getOpcode self hex
     = RV32.decodeHex getOpcode self s).
Proof.
  split; [| split].
  - intros c Hc Hbad. unfold Unicode.decodeHex, Unicode.int.
    rewrite (long_from_string_stuck _ (transform_rejected hex c Hc Hbad)).
    reflexivity.
  - intros n Hn Hneg. unfold Unicode.decodeHex. rewrite Hn. cbn [bind].
    destruct n as [| p | p]; try lia.
    rewrite bitarray_of_negative. reflexivity.
  - intros Hdb s ->. apply decodeHex_codes, Hdb.
Qed.

End UnicodeDatabase.

Lemma sample_latin1_database :
  latin1_database Unicode.sample_isspace Unicode.sample_todecimal.
Proof.
  intros c. destruct c as [[] [] [] [] [] [] [] []]; vm_compute;
    (split; [reflexivity | reflexivity]) || (intros H; destruct (H eq_refl)).
Qed.

Lemma decodeHex_text_value_error_witness :
  Unicode.decodeHex Unicode.sample_isspace Unicode.sample_todecimal
    Sample.getOpcode (Sample.rv "32I") [1635; 103]%N = Raise ValueError /\
  Unicode.decodeHex Unicode.sample_isspace Unicode.sample_todecimal
    Sample.getOpcode (Sample.rv "32I") [45; 1635]%N = Raise ValueError /\
  Unicode.decodeHex Unicode.sample_isspace Unicode.sample_todecimal
    Sample.getOpcode (Sample.rv "32I") (Unicode.codes "0x0005029g")
  = Sample.decodeHex "32I" "0x0005029g".
Proof.
  split; [| split].
  - refine (proj1 (decodeHex_text_value_error Unicode.sample_isspace
                     Unicode.sample_todecimal Sample.getOpcode (Sample.rv "32I")
                     [1635; 103]%N) 103%N _ eq_refl).
    simpl. tauto.
  - refine (proj1 (proj2 (decodeHex_text_value_error Unicode.sample_isspace
                            Unicode.sample_todecimal Sample.getOpcode (Sample.rv "32I")
                            [45; 1635]%N)) (-3) eq_refl _).
    lia.
  - exact (proj2 (proj2 (decodeHex_text_value_error Unicode.sample_isspace
                           Unicode.sample_todecimal Sample.getOpcode (Sample.rv "32I")
                           (Unicode.codes "0x0005029g")))
             sample_latin1_database "0x0005029g" eq_refl).
Defined.

(** ** Binary text and width *)

Lemma bin_digits_acc (p : positive) (acc : string) :
  Py.bin_digits p acc = Py.bin_digits p "" ++ acc.
Proof.
  revert acc. induction p as [p IH | p IH |]; intros acc; simpl.
  - rewrite (IH (String "1" acc)), (IH "1"), append_assoc. reflexivity.
  - rewrite (IH (String "0" acc)), (IH "0"), append_assoc. reflexivity.
  - reflexivity.
Qed.

Lemma bin_digits_length (p : positive) :
  String.length (Py.bin_digits p "") = Pos.size_nat p.
Proof.
  induction p as [p IH | p IH |]; simpl; [| | reflexivity];
    rewrite bin_digits_acc, append_length, IH; simpl; lia.
Qed.

Lemma size_nat_bound (p : positive) :
  forall k : nat, Zpos p < 2 ^ Z.of_nat k -> (Pos.size_nat p <= k)%nat.
Proof.
  induction p as [p IH | p IH |]; intros k Hk; simpl.
  - destruct k as [| k]; [simpl in Hk; lia |].
    rewrite Nat2Z.inj_succ, Z.pow_succ_r in Hk by lia.
    specialize (IH k). lia.
  - destruct k as [| k]; [simpl in Hk; lia |].
    rewrite Nat2Z.inj_succ, Z.pow_succ_r in Hk by lia.
    specialize (IH k). lia.
  - destruct k as [| k]; [simpl in Hk; lia | lia].
Qed.

Lemma bitarray_of_to01 (ba : bitarray) : bitarray_of_str (to01 ba) = Ok ba.
Proof.
  induction ba as [| b ba IH]; [reflexivity |].
  destruct b; simpl; rewrite IH; reflexivity.
Qed.

Lemma to01_length (ba : bitarray) : String.length (to01 ba) = length ba.
Proof. induction ba as [| b ba IH]; simpl; [| rewrite IH]; reflexivity. Qed.

Lemma to01_zeros (k : nat) (ba : bitarray) :
  to01 (replicate k false ++ ba)%list = Py.zeros k ++ to01 ba.
Proof.
  induction k as [| k IH]; [reflexivity |].
  simpl. rewrite IH. reflexivity.
Qed.

(** The binary digits of a positive number are the text of a bit sequence. *)
Lemma bin_digits_bits (p : positive) :
  forall acc : bitarray, exists ba, Py.bin_digits p (to01 acc) = to01 ba.
Proof.
  induction p as [p IH | p IH |]; intros acc; simpl.
  - apply (IH (true :: acc)).
  - apply (IH (false :: acc)).
  - exists (true :: acc). reflexivity.
Qed.

Lemma raw_bits (n : Z) :
  0 <= n -> exists ba, Py.drop 2 (Py.bin n) = to01 ba.
Proof.
  intros Hn. destruct n as [| p | p]; [| | lia].
  - exists [false]. reflexivity.
  - apply (bin_digits_bits p []).
Qed.

Lemma zfill_to01 (ba : bitarray) (width : nat) :
  Py.zfill (to01 ba) width = Py.zeros (width - String.length (to01 ba)) ++ to01 ba.
Proof. destruct ba as [| [] ba]; reflexivity. Qed.

Lemma drop_append (s r : string) : Py.drop (String.length s) (s ++ r) = r.
Proof.
  induction s as [| a s IH]; [destruct r; reflexivity |].
  rewrite append_cons. simpl. exact IH.
Qed.

Lemma last_chars_2 (s : string) (a b : ascii) :
  Py.last_chars 2 (s ++ String a (String b "")) = String a (String b "").
Proof.
  unfold Py.last_chars. rewrite append_length. simpl String.length.
  replace (String.length s + 2 - 2)%nat with (String.length s) by lia.
  apply drop_append.
Qed.

Lemma pos_mod4 (q : positive) :
  Z.pos q~0~0 mod 4 = 0 /\ Z.pos q~0~1 mod 4 = 1 /\
  Z.pos q~1~0 mod 4 = 2 /\ Z.pos q~1~1 mod 4 = 3.
Proof.
  rewrite (Pos2Z.inj_xO (q~0)), (Pos2Z.inj_xI (q~0)), (Pos2Z.inj_xO (q~1)),
    (Pos2Z.inj_xI (q~1)), (Pos2Z.inj_xO q), (Pos2Z.inj_xI q).
  repeat split; Z.to_euclidean_division_equations; lia.
Qed.

(** The last two binary digits are both 1 exactly for the numbers that
    are 3 modulo 4. *)
Lemma last_chars_mod4 (n : Z) :
  0 <= n ->
  String.eqb (Py.last_chars 2 (Py.drop 2 (Py.bin n))) "11" = true <-> n mod 4 = 3.
Proof.
  intros Hn. destruct n as [| p | p]; [| | lia].
  - split; intros H; discriminate H.
  - change (Py.drop 2 (Py.bin (Z.pos p))) with (Py.bin_digits p "").
    destruct p as [[q | q |] | [q | q |] |]; simpl Py.bin_digits;
      try (rewrite (bin_digits_acc q), last_chars_2;
           destruct (pos_mod4 q) as (H0 & H1 & H2 & H3));
      split; intros H; try reflexivity; try discriminate H; congruence.
Qed.

Lemma raw_length_bound (n : Z) (k : nat) :
  0 <= n -> (1 <= k)%nat -> n < 2 ^ Z.of_nat k ->
  (String.length (Py.drop 2 (Py.bin n)) <= k)%nat.
Proof.
  intros Hn Hk Hlt. destruct n as [| p | p]; [exact Hk | | lia].
  change (Py.drop 2 (Py.bin (Z.pos p))) with (Py.bin_digits p "").
  rewrite bin_digits_length. apply size_nat_bound, Hlt.
Qed.

Lemma decode_entry (getOpcode : bitarray -> result bitarray)
    (self : RV32.t) (ba : bitarray) (i : RVInstruction.t) :
  RV32.decode getOpcode self ba = Ok i ->
  exists key f, RV32.instructionTable self !! key = Some f /\ f ba = Ok i.
Proof.
  unfold RV32.decode.
  destruct (getOpcode ba) as [key |]; [| discriminate]. cbn [bind].
  destruct (RV32.instructionTable self !! key) as [f |] eqn:Hf; [| discriminate].
  intros Hi. exists key, f. auto.
Qed.

(** C1: for a hexadecimal word of value [n], [decodeHex] selects width 32
    exactly when the last two digits of the unpadded binary text of [n]
    are 11, that is when [n] is 3 modulo 4, and width 16 otherwise; the
    text is left-padded with zeros to that width and the bits are handed
    to [decode]; a compressed word (16 bits, not ending in 11) is decoded
    to an instruction of size 16 by entries that report the length of
    their input. *)
Theorem decodeHex_width
    (getOpcode : bitarray -> result bitarray) (self : RV32.t)
    (hex : string) (n : Z) :
  Py.int hex 16 = Ok n -> 0 <= n ->
  let raw := Py.drop 2 (Py.bin n) in
  let width := if String.eqb (Py.last_chars 2 raw) "11" then 32%nat else 16%nat in
  (width = 32%nat <-> n mod 4 = 3) /\
  (width = 16%nat <-> n mod 4 <> 3) /\
  exists ba : bitarray,
    to01 ba = Py.zfill raw width /\
    Py.zfill raw width = Py.zeros (width - String.length raw) ++ raw /\
    (n < 2 ^ Z.of_nat width -> length ba = width) /\
    RV32.decodeHex getOpcode self hex = RV32.decode getOpcode self ba /\
    (n mod 4 <> 3 -> n < 2 ^ 16 ->
     sized_entries (RV32.instructionTable self) ->
     forall i, RV32.decodeHex getOpcode self hex = Ok i -> RVInstruction.size i = 16).
Proof.
  intros Hint Hn raw width.
  pose proof (last_chars_mod4 n Hn) as Hmod. fold raw in Hmod.
  assert (Hw32 : width = 32%nat <-> n mod 4 = 3).
  { unfold width. destruct (String.eqb (Py.last_chars 2 raw) "11").
    - split; [intros _; apply Hmod; reflexivity | reflexivity].
    - split; [discriminate | intros H; apply Hmod in H; discriminate H]. }
  assert (Hw16 : width = 16%nat <-> n mod 4 <> 3).
  { unfold width in *. destruct (String.eqb (Py.last_chars 2 raw) "11").
    - split; [discriminate | intros H; destruct H; apply Hw32; reflexivity].
    - split; [intros _ H; apply Hw32 in H; discriminate H | reflexivity]. }
  split; [exact Hw32 | split; [exact Hw16 |]].
  destruct (raw_bits n Hn) as [ba0 Hraw]. fold raw in Hraw.
  exists (replicate (width - String.length raw) false ++ ba0)%list.
  assert (Hfill : Py.zfill raw width = Py.zeros (width - String.length raw) ++ raw).
  { rewrite Hraw. apply zfill_to01. }
  assert (Hbits : to01 (replicate (width - String.length raw) false ++ ba0)%list
                  = Py.zfill raw width).
  { rewrite Hfill, to01_zeros, Hraw. reflexivity. }
  assert (Hlen : n < 2 ^ Z.of_nat width ->
                 length (replicate (width - String.length raw) false ++ ba0)%list = width).
  { intros Hlt.
    assert (Hle : (String.length raw <= width)%nat).
    { apply raw_length_bound; [exact Hn | | exact Hlt].
      unfold width. destruct (String.eqb _ _); lia. }
    rewrite length_app, length_replicate.
    rewrite Hraw, to01_length in Hle |- *. lia. }
  assert (Hdec : RV32.decodeHex getOpcode self hex
                 = RV32.decode getOpcode self
                     (replicate (width - String.length raw) false ++ ba0)%list).
  { unfold RV32.decodeHex. rewrite Hint. cbn [bind]. fold raw.
    rewrite Hraw, bitarray_of_to01. cbn [bind]. rewrite <- Hraw.
    replace (if negb (String.eqb (Py.last_chars 2 raw) "11") then 16%nat else 32%nat)
      with width by (unfold width; destruct (String.eqb _ _); reflexivity).
    rewrite <- Hbits, bitarray_of_to01. reflexivity. }
  repeat split; try assumption.
  intros Hcompressed Hshort Hsized i Hi.
  rewrite Hdec in Hi. apply decode_entry in Hi as (key & f & Hf & Hi).
  rewrite (Hsized key f _ i Hf Hi).
  apply Hw16 in Hcompressed. rewrite Hlen by (rewrite Hcompressed; exact Hshort).
  rewrite Hcompressed. reflexivity.
Qed.

Lemma sized_entries_empty : sized_entries ∅.
Proof. intros key f ba i Hf. rewrite lookup_empty in Hf. discriminate. Qed.

Lemma sized_entries_update
    (d other : gmap bitarray (bitarray -> result RVInstruction.t)) :
  sized_entries d -> sized_entries other -> sized_entries (RV32.update d other).
Proof.
  intros Hd Ho key f ba i Hf. unfold RV32.update in Hf.
  apply lookup_union_Some_raw in Hf as [Hf | [_ Hf]]; eauto.
Qed.

Lemma sized_entries_init (I32 M32 V32 C32 : Extension.t) (isa : string) :
  sized_entries (Extension.instructionTable I32) ->
  sized_entries (Extension.instructionTable M32) ->
  sized_entries (Extension.instructionTable V32) ->
  sized_entries (Extension.instructionTable C32) ->
  sized_entries (RV32.instructionTable (RV32.__init__ I32 M32 V32 C32 isa)).
Proof.
  intros HI HM HV HC. unfold RV32.__init__.
  destruct (Py.contains "32I" isa), (Py.contains "M" isa),
    (Py.contains "V" isa), (Py.contains "C" isa);
    cbn [RV32.instructionTable];
    repeat apply sized_entries_update; auto using sized_entries_empty.
Qed.

Lemma sized_entries_sample (key : bitarray) (fmt mnemonic : string) :
  sized_entries {[ key := Sample.entry fmt mnemonic ]}.
Proof.
  intros k f ba i Hf Hi.
  apply lookup_singleton_Some in Hf as [_ <-].
  injection Hi as <-. reflexivity.
Qed.

Lemma sized_entries_rv (isa : string) :
  sized_entries (RV32.instructionTable (Sample.rv isa)).
Proof.
  apply sized_entries_init;
    first [apply sized_entries_sample | apply sized_entries_empty].
Qed.

Lemma decodeHex_width_witness :
  exists i, Sample.decodeHex "32IC" "0x0001" = Ok i /\ RVInstruction.size i = 16.
Proof.
  assert (H0 : 0 <= 1) by lia.
  destruct (decodeHex_width Sample.getOpcode (Sample.rv "32IC") "0x0001" 1 eq_refl H0)
    as (_ & _ & ba & _ & _ & _ & _ & Hsize).
  destruct (Sample.decodeHex "32IC" "0x0001") as [i |] eqn:E; [| discriminate E].
  exists i. split; [reflexivity |].
  apply Hsize; [discriminate | reflexivity | apply sized_entries_rv | exact E].
Defined.

(** ** Register ids outside x0..x31 *)

(** C5, as the claim states it, fails: on the empty string and on an x
    followed by text that is not a number [get_print_name] raises. *)
Lemma fallback_counterexample :
  RVInstruction.get_print_name "" = Raise IndexError /\
  RVInstruction.get_print_name "x" = Raise ValueError /\
  RVInstruction.get_print_name "xa" = Raise ValueError /\
  (forall n : nat, xreg n <> "xa").
Proof.
  repeat split; try reflexivity.
  intros n H. unfold xreg in H. injection H as H.
  destruct n as [| n]; [discriminate H |].
  unfold Py.str_of_int in H. simpl Z.to_int in H.
  destruct (Pos.to_uint (Pos.of_succ_nat n)); simpl in H; discriminate H.
Qed.

Lemma outside_range (n lo hi : Z) :
  0 <= lo -> hi <= 31 -> n < 0 \/ 31 < n -> (n >=? lo) && (n <=? hi) = false.
Proof.
  intros Hlo Hhi Hn. rewrite Z.geb_leb.
  destruct (Z.leb_spec lo n), (Z.leb_spec n hi); simpl; try reflexivity; lia.
Qed.

(** C5, amended: a non-empty register id that does not start with x (f1
    and v0 among them), and an x followed by text that [int] reads as a
    number outside 0..31, are returned unchanged; the empty string raises
    [IndexError] and an x followed by text that [int] rejects raises the
    error of [int]. *)
Theorem get_print_name_fallback (register_name : string) :
  (forall c rest, register_name = String c rest -> c <> "x"%char ->
     RVInstruction.get_print_name register_name = Ok register_name) /\
  (forall rest n, register_name = String "x" rest ->
     Py.int rest 10 = Ok n -> n < 0 \/ 31 < n ->
     RVInstruction.get_print_name register_name = Ok register_name) /\
  (register_name = "" ->
     RVInstruction.get_print_name register_name = Raise IndexError) /\
  (forall rest e, register_name = String "x" rest ->
     Py.int rest 10 = Raise e ->
     RVInstruction.get_print_name register_name = Raise e) /\
  RVInstruction.get_print_name "f1" = Ok "f1" /\
  RVInstruction.get_print_name "v0" = Ok "v0".
Proof.
  split; [| split; [| split; [| split; [| split; reflexivity]]]].
  - intros c rest -> Hc. unfold RVInstruction.get_print_name.
    cbn [Py.first_char bind].
    destruct (Ascii.eqb_spec c "x"); [contradiction | reflexivity].
  - intros rest n -> Hint Hn. unfold RVInstruction.get_print_name.
    cbn [Py.first_char bind]. rewrite Ascii.eqb_refl.
    change (Py.drop 1 (String "x" rest)) with rest. rewrite Hint. cbn [bind].
    repeat match goal with
           | |- context [String.eqb (String "x" rest) ?lit] =>
               destruct (String.eqb_spec (String "x" rest) lit) as [E | _];
               [injection E as ->; vm_compute in Hint; injection Hint as <-; lia |]
           end.
    rewrite !outside_range by (trivial; lia). reflexivity.
  - intros ->. reflexivity.
  - intros rest e -> Hint. unfold RVInstruction.get_print_name.
    cbn [Py.first_char bind]. rewrite Ascii.eqb_refl.
    change (Py.drop 1 (String "x" rest)) with rest. rewrite Hint. reflexivity.
Qed.

Lemma get_print_name_fallback_witness :
  RVInstruction.get_print_name "f7" = Ok "f7" /\
  RVInstruction.get_print_name "x32" = Ok "x32" /\
  RVInstruction.get_print_name "x1f" = Raise ValueError.
Proof.
  split; [| split].
  - refine (proj1 (get_print_name_fallback "f7") "f"%char "7" eq_refl _). discriminate.
  - refine (proj1 (proj2 (get_print_name_fallback "x32")) "32" 32 eq_refl eq_refl _). lia.
  - exact (proj1 (proj2 (proj2 (proj2 (get_print_name_fallback "x1f"))))
             "1f" ValueError eq_refl eq_refl).
Defined.

(** * Further properties of the two files *)

(** ** sizeInBytes *)

Lemma round53_small (z : Z) : Z.abs z < 2 ^ 53 -> Py.round53 z = z.
Proof.
  intros Hz. unfold Py.round53.
  assert (Hlog : Z.log2 (Z.abs z) < 53).
  { destruct (Z.eq_dec (Z.abs z) 0) as [-> | Hne]; [reflexivity |].
    apply Z.log2_lt_pow2; lia. }
  destruct (Z.leb_spec (Z.log2 (Z.abs z) + 1 - 53) 0); [reflexivity | lia].
Qed.

Lemma int_truediv8_small (z : Z) :
  Z.abs z < 2 ^ 53 -> Py.int_truediv8 z = Ok (Z.quot z 8).
Proof.
  intros Hz. unfold Py.int_truediv8. rewrite (round53_small z Hz).
  assert (Hpow : 2 ^ 53 < 2 ^ 1027) by (apply Z.pow_lt_mono_r; lia).
  destruct (Z.leb_spec (2 ^ 1027) (Z.abs z)); [lia | reflexivity].
Qed.

(** X1: for a size below 2^53 in magnitude [sizeInBytes] returns the size
    divided by 8 with the fraction cut off (towards zero): the floor for a
    size that is not negative, and the exact eighth of a multiple of 8. *)
Theorem sizeInBytes_truncates (self : RVInstruction.t) :
  Z.abs (RVInstruction.size self) < 2 ^ 53 ->
  RVInstruction.sizeInBytes self = Ok (Z.quot (RVInstruction.size self) 8) /\
  (0 <= RVInstruction.size self ->
   RVInstruction.sizeInBytes self = Ok (RVInstruction.size self / 8)) /\
  (forall k, RVInstruction.size self = 8 * k ->
   RVInstruction.sizeInBytes self = Ok k).
Proof.
  intros Hsmall. unfold RVInstruction.sizeInBytes.
  rewrite (int_truediv8_small _ Hsmall). repeat split.
  - intros Hpos. rewrite Z.quot_div_nonneg by lia. reflexivity.
  - intros k Hk. rewrite Hk. f_equal.
    rewrite Z.mul_comm. apply Z.quot_mul. lia.
Qed.

Lemma sizeInBytes_truncates_witness :
  RVInstruction.sizeInBytes
    (RVInstruction.__init__ None None None None None None (Some (-9)) None None)
  = Ok (-1).
Proof.
  refine (proj1 (sizeInBytes_truncates
            (RVInstruction.__init__ None None None None None None (Some (-9)) None None) _)).
  vm_compute. reflexivity.
Defined.

(** ** Classification *)

Ltac name_cases H :=
  apply in_list_In in H; simpl in H;
  repeat (destruct H as [<- | H]; [try reflexivity; try discriminate |]);
  try destruct H.

(** X2: the classes are disjoint: no instruction is both a jump and a
    branch, none is both a load and a store, and no control transfer is a
    memory access. *)
Theorem classes_disjoint (self : RVInstruction.t) :
  RVInstruction.isJump self && RVInstruction.isBranch self = false /\
  RVInstruction.isLoad self && RVInstruction.isStore self = false /\
  RVInstruction.isControlTransfer self && RVInstruction.isMemAccess self = false.
Proof.
  unfold RVInstruction.isControlTransfer, RVInstruction.isMemAccess,
    RVInstruction.isJump, RVInstruction.isBranch, RVInstruction.isLoad,
    RVInstruction.isStore.
  repeat split.
  - destruct (RVInstruction.in_list (RVInstruction.name self) _) eqn:E at 1;
      [| reflexivity]. name_cases E.
  - destruct (RVInstruction.in_list (RVInstruction.name self) _) eqn:E at 1;
      [| reflexivity]. name_cases E.
  - destruct (RVInstruction.in_list (RVInstruction.name self)
                ["j"; "jal"; "jalr"; "jr"; "c.j"; "c.jal"; "c.jalr"; "c.jr"]) eqn:E.
    + name_cases E.
    + destruct (RVInstruction.in_list (RVInstruction.name self) _) eqn:E' at 1;
        [| reflexivity]. clear E. name_cases E'.
Qed.

(** X3: the PC-relative classes lie inside the general ones: a
    PC-relative jump is a jump, a PC-relative control transfer is a control
    transfer, and the jumps that are not PC-relative are exactly jalr, jr,
    c.jalr and c.jr. *)
Theorem pc_relative_classes (self : RVInstruction.t) :
  (RVInstruction.isJumpPCRelative self = true -> RVInstruction.isJump self = true) /\
  (RVInstruction.isControlTransferPCRelative self = true ->
   RVInstruction.isControlTransfer self = true) /\
  (RVInstruction.isJump self = true /\ RVInstruction.isJumpPCRelative self = false <->
   In (RVInstruction.name self) ["jalr"; "jr"; "c.jalr"; "c.jr"]).
Proof.
  assert (Hsub : RVInstruction.isJumpPCRelative self = true ->
                 RVInstruction.isJump self = true).
  { unfold RVInstruction.isJumpPCRelative, RVInstruction.isJump.
    intros H. name_cases H. }
  split; [exact Hsub | split].
  - unfold RVInstruction.isControlTransferPCRelative, RVInstruction.isControlTransfer.
    intros H. apply orb_true_iff in H as [H | H].
    + rewrite (Hsub H). reflexivity.
    + rewrite H. apply orb_true_r.
  - unfold RVInstruction.isJumpPCRelative, RVInstruction.isJump. split.
    + intros [Hj Hrel]. apply in_list_In in Hj. simpl in Hj.
      repeat (destruct Hj as [Hj | Hj];
              [first [ rewrite <- Hj in Hrel; discriminate Hrel
                     | rewrite <- Hj; simpl; tauto ] |]).
      destruct Hj.
    + intros H. simpl in H.
      repeat (destruct H as [<- | H]; [split; reflexivity |]). destruct H.
Qed.

Lemma pc_relative_classes_witness :
  RVInstruction.isJump (Sample.instr "c.jal" [] [] [4]) = true /\
  RVInstruction.isControlTransfer (Sample.instr "beq" [] ["x1"; "x2"] [8]) = true /\
  RVInstruction.isJumpPCRelative (Sample.instr "jr" [] ["x1"] []) = false.
Proof.
  split; [| split].
  - exact (proj1 (pc_relative_classes (Sample.instr "c.jal" [] [] [4])) eq_refl).
  - exact (proj1 (proj2 (pc_relative_classes (Sample.instr "beq" [] ["x1"; "x2"] [8])))
             eq_refl).
  - destruct (pc_relative_classes (Sample.instr "jr" [] ["x1"] [])) as (_ & _ & Hiff).
    apply Hiff. simpl. tauto.
Defined.

(** ** The rendered text *)

Lemma lstrip_is_clean (s : string) : starts_clean (Py.lstrip_with Py.isspace s).
Proof.
  induction s as [| a r IH]; intros c Hc; [discriminate Hc |].
  simpl in Hc. destruct (Py.isspace a) eqn:Ha.
  - apply IH, Hc.
  - injection Hc as <-. exact Ha.
Qed.

Lemma rstrip_cons (a : ascii) (r : string) :
  Py.rstrip_with Py.isspace (String a r)
  = match Py.rstrip_with Py.isspace r with
    | EmptyString => if Py.isspace a then EmptyString else String a EmptyString
    | r' => String a r'
    end.
Proof. reflexivity. Qed.

Lemma rstrip_is_clean (s : string) : ends_clean (Py.rstrip_with Py.isspace s).
Proof.
  induction s as [| a r IH]; intros c Hc; [discriminate Hc |].
  rewrite rstrip_cons in Hc.
  destruct (Py.rstrip_with Py.isspace r) as [| b r'] eqn:E.
  - destruct (Py.isspace a) eqn:Ha; [discriminate Hc |].
    injection Hc as <-. exact Ha.
  - apply IH. exact Hc.
Qed.

Lemma rstrip_keeps_head (s : string) :
  starts_clean s -> starts_clean (Py.rstrip_with Py.isspace s).
Proof.
  destruct s as [| a r]; intros Hs c Hc; [discriminate Hc |].
  rewrite rstrip_cons in Hc. pose proof (Hs a eq_refl) as Ha.
  destruct (Py.rstrip_with Py.isspace r); [rewrite Ha in Hc |];
    injection Hc as <-; exact Ha.
Qed.

Lemma strip_idempotent (s : string) : Py.strip (Py.strip s) = Py.strip s.
Proof.
  apply strip_clean; unfold Py.strip.
  - apply rstrip_keeps_head, lstrip_is_clean.
  - apply rstrip_is_clean.
Qed.

Lemma str_is_strip (self : RVInstruction.t) (s : string) :
  RVInstruction.__str__ self = Ok s -> exists t, s = Py.strip t.
Proof.
  unfold RVInstruction.__str__.
  destruct (mapM _ (RVInstruction.dest_registers self)) as [dest |]; [| discriminate].
  destruct (mapM _ (RVInstruction.src_registers self)) as [src |]; [| discriminate].
  cbn [bind].
  destruct (RVInstruction.in_list (RVInstruction.name self) _).
  - destruct (RVInstruction.in_list (RVInstruction.name self) _).
    + cbn [bind]. intros [= <-]. eexists. reflexivity.
    + destruct (RVInstruction.first_of src); [| discriminate].
      cbn [bind]. intros [= <-]. eexists. reflexivity.
  - intros [= <-]. eexists. reflexivity.
Qed.

(** X5: the text [__str__] returns has no white space at either end:
    stripping it again changes nothing, and its first and last characters
    are not white space. *)
Theorem str_is_stripped (self : RVInstruction.t) (s : string) :
  RVInstruction.__str__ self = Ok s ->
  Py.strip s = s /\ starts_clean s /\ ends_clean s.
Proof.
  intros H. apply str_is_strip in H as [t ->].
  split; [apply strip_idempotent |]. unfold Py.strip. split.
  - apply rstrip_keeps_head, lstrip_is_clean.
  - apply rstrip_is_clean.
Qed.

Lemma str_is_stripped_witness :
  Py.strip "c.lwsp a0,4(sp)" = "c.lwsp a0,4(sp)" /\
  starts_clean "c.lwsp a0,4(sp)" /\ ends_clean "c.lwsp a0,4(sp)".
Proof.
  exact (str_is_stripped (Sample.instr "c.lwsp" ["x10"] [] [4]) "c.lwsp a0,4(sp)" eq_refl).
Defined.

Lemma mapM_nil {A B : Type} (f : A -> result B) (l : list A) :
  mapM f l = Ok [] -> l = [].
Proof.
  destruct l as [| x l]; [reflexivity |]. simpl.
  destruct (f x); [| discriminate]. cbn [bind].
  destruct (mapM f l); discriminate.
Qed.

Lemma base_register_tests (name : string) :
  In name base_register_names <->
  RVInstruction.in_list name base_layout_names = true /\
  RVInstruction.in_list name ["c.lwsp"; "c.swsp"] = false.
Proof.
  split.
  - intros H. unfold base_register_names in H. simpl in H.
    repeat (destruct H as [<- | H]; [split; reflexivity |]). destruct H.
  - intros [Hbase Hsp]. apply in_list_In in Hbase.
    unfold base_layout_names in Hbase. simpl in Hbase.
    unfold base_register_names. simpl.
    repeat (destruct Hbase as [Hbase | Hbase];
            [first [ rewrite <- Hbase in Hsp; discriminate Hsp | tauto ] |]).
    destruct Hbase.
Qed.

Lemma str_no_base_register (self : RVInstruction.t) (dest : list string) :
  mapM RVInstruction.get_print_name (RVInstruction.dest_registers self) = Ok dest ->
  In (RVInstruction.name self) base_register_names ->
  RVInstruction.src_registers self = [] ->
  RVInstruction.__str__ self = Raise IndexError.
Proof.
  intros Hdest Hin Hsrc. apply base_register_tests in Hin as [Hbase Hsp].
  unfold RVInstruction.__str__, base_layout_names in *.
  rewrite Hdest, Hsrc. cbn [mapM bind]. rewrite Hbase, Hsp. reflexivity.
Qed.

Lemma str_returns (self : RVInstruction.t) (dest src : list string) :
  mapM RVInstruction.get_print_name (RVInstruction.dest_registers self) = Ok dest ->
  mapM RVInstruction.get_print_name (RVInstruction.src_registers self) = Ok src ->
  (In (RVInstruction.name self) base_register_names ->
   RVInstruction.src_registers self <> []) ->
  succeeds (RVInstruction.__str__ self).
Proof.
  intros Hdest Hsrc Hbase.
  destruct (RVInstruction.in_list (RVInstruction.name self) base_layout_names) eqn:E.
  - destruct (RVInstruction.in_list (RVInstruction.name self) ["c.lwsp"; "c.swsp"]) eqn:E'.
    + eexists. apply (str_base_sp self dest src Hdest Hsrc).
      apply in_list_In, E'.
    + assert (Hin : In (RVInstruction.name self) base_register_names)
        by (apply base_register_tests; auto).
      destruct src as [| base rest].
      * destruct (Hbase Hin). apply (mapM_nil _ _ Hsrc).
      * eexists. apply (str_base_register self dest (base :: rest) Hdest Hsrc base rest);
          [exact Hin | reflexivity].
  - eexists. apply (str_plain self dest src Hdest Hsrc E).
Qed.

(** X6: [__str__] returns a text exactly when every destination and
    source register has a print name and, for a name rendered with a base
    register, there is a source register to take it from. *)
Theorem str_succeeds_iff (self : RVInstruction.t) :
  succeeds (RVInstruction.__str__ self) <->
  succeeds (mapM RVInstruction.get_print_name (RVInstruction.dest_registers self)) /\
  succeeds (mapM RVInstruction.get_print_name (RVInstruction.src_registers self)) /\
  (In (RVInstruction.name self) base_register_names ->
   RVInstruction.src_registers self <> []).
Proof.
  split.
  - intros [s Hs].
    destruct (mapM RVInstruction.get_print_name (RVInstruction.dest_registers self))
      as [dest |] eqn:Hdest;
      [| unfold RVInstruction.__str__ in Hs; rewrite Hdest in Hs; discriminate Hs].
    destruct (mapM RVInstruction.get_print_name (RVInstruction.src_registers self))
      as [src |] eqn:Hsrc;
      [| unfold RVInstruction.__str__ in Hs; rewrite Hdest, Hsrc in Hs; discriminate Hs].
    repeat split; try (eexists; reflexivity).
    intros Hin Hnil.
    rewrite (str_no_base_register self dest Hdest Hin Hnil) in Hs. discriminate Hs.
  - intros ([dest Hdest] & [src Hsrc] & Hbase).
    apply (str_returns self dest src); assumption.
Qed.

Lemma str_succeeds_iff_witness :
  succeeds (RVInstruction.__str__ (Sample.instr "lw" ["x10"] ["x2"] [8])) /\
  ~ succeeds (RVInstruction.__str__ (Sample.instr "jalr" ["x1"] [] [0])).
Proof.
  split.
  - apply (proj2 (str_succeeds_iff (Sample.instr "lw" ["x10"] ["x2"] [8]))).
    repeat split; try (eexists; reflexivity). discriminate.
  - intros H.
    apply (proj1 (str_succeeds_iff (Sample.instr "jalr" ["x1"] [] [0]))) in H
      as (_ & _ & Hsrc).
    apply Hsrc; [simpl; tauto | reflexivity].
Defined.



Lemma rstrip_app (s t : string) :
  Py.rstrip_with Py.isspace (s ++ t)
  = match Py.rstrip_with Py.isspace t with
    | EmptyString => Py.rstrip_with Py.isspace s
    | t' => s ++ t'
    end.
Proof.
  induction s as [| a s IH].
  - change ("" ++ t) with t. destruct (Py.rstrip_with Py.isspace t); reflexivity.
  - rewrite append_cons, !rstrip_cons, IH.
    destruct (Py.rstrip_with Py.isspace t) as [| b t'] eqn:E; [reflexivity |].
    rewrite append_cons.
    destruct (s ++ String b t') eqn:E'; [| reflexivity].
    destruct s; discriminate E'.
Qed.

Lemma prefix_app (s t : string) : String.prefix s (s ++ t) = true.
Proof.
  induction s as [| a s IH]; [destruct t; reflexivity |].
  rewrite append_cons. simpl.
  destruct (ascii_dec a a) as [_ | Hne]; [exact IH | destruct Hne; reflexivity].
Qed.

Lemma append_nil_r (s : string) : s ++ "" = s.
Proof.
  induction s as [| a s IH]; [reflexivity |].
  rewrite append_cons, IH. reflexivity.
Qed.

Lemma strip_keeps_name (name rest : string) :
  starts_clean name -> ends_clean name ->
  String.prefix name (Py.strip (name ++ " " ++ rest)) = true.
Proof.
  intros Hs He. destruct name as [| a r]; [destruct (Py.strip _); reflexivity |].
  unfold Py.strip.
  rewrite lstrip_starts_clean by (apply starts_clean_app; [discriminate | exact Hs]).
  rewrite rstrip_app.
  destruct (Py.rstrip_with Py.isspace (" " ++ rest)).
  - rewrite (rstrip_ends_clean _ He).
    pose proof (prefix_app (String a r) "") as H.
    rewrite append_nil_r in H. exact H.
  - apply prefix_app.
Qed.

Lemma str_shape (self : RVInstruction.t) (s : string) :
  RVInstruction.__str__ self = Ok s ->
  exists rest, s = Py.strip (RVInstruction.name self ++ " " ++ rest).
Proof.
  unfold RVInstruction.__str__.
  destruct (mapM _ (RVInstruction.dest_registers self)) as [dest |]; [| discriminate].
  destruct (mapM _ (RVInstruction.src_registers self)) as [src |]; [| discriminate].
  cbn [bind].
  destruct (RVInstruction.in_list (RVInstruction.name self) _).
  - destruct (RVInstruction.in_list (RVInstruction.name self) _).
    + cbn [bind]. intros [= <-]. eexists. reflexivity.
    + destruct (RVInstruction.first_of src); [| discriminate].
      cbn [bind]. intros [= <-]. eexists. reflexivity.
  - intros [= <-]. eexists. reflexivity.
Qed.

(** X8: the text [__str__] returns begins with the mnemonic, for a
    mnemonic without white space at its ends. *)
Theorem str_begins_with_name (self : RVInstruction.t) (s : string) :
  RVInstruction.__str__ self = Ok s ->
  starts_clean (RVInstruction.name self) -> ends_clean (RVInstruction.name self) ->
  String.prefix (RVInstruction.name self) s = true.
Proof.
  intros H Hs He. apply str_shape in H as [rest ->].
  apply strip_keeps_name; assumption.
Qed.

Lemma str_begins_with_name_witness :
  String.prefix "addi" "addi t0,a0,0" = true.
Proof.
  refine (str_begins_with_name (Sample.instr "addi" ["x5"] ["x10"] [0])
            "addi t0,a0,0" eq_refl _ _);
    intros c [= <-]; reflexivity.
Defined.

(** ** Print names *)

Ltac literal_register rest Hint :=
  repeat match goal with
         | |- context [String.eqb (String "x" rest) ?lit] =>
             destruct (String.eqb_spec (String "x" rest) lit) as [E | _];
             [injection E as ->; vm_compute in Hint; injection Hint as <-;
              first [ lia
                    | match goal with
                      | H : _ <> _ |- _ => vm_compute in H; congruence
                      end ] |]
         end.

(** X9: for an x followed by text that [int] reads as a number from 10
    to 31, whatever its spelling (leading zeros, a plus sign, blanks), the
    print name is the ABI name of that register; a number from 0 to 9 is
    given its ABI name only in its plain one-digit spelling and is otherwise
    returned unchanged. *)
Theorem get_print_name_by_value (rest : string) (n : Z) :
  Py.int rest 10 = Ok n ->
  (10 <= n <= 31 ->
   RVInstruction.get_print_name (String "x" rest)
   = Ok (nth (Z.to_nat n) abi_names "")) /\
  (0 <= n <= 9 -> rest <> Py.str_of_int n ->
   RVInstruction.get_print_name (String "x" rest) = Ok (String "x" rest)).
Proof.
  intros Hint. split.
  - intros Hn. unfold RVInstruction.get_print_name.
    cbn [Py.first_char bind]. rewrite Ascii.eqb_refl.
    change (Py.drop 1 (String "x" rest)) with rest. rewrite Hint. cbn [bind].
    literal_register rest Hint.
    assert (Hcases : In n [10; 11; 12; 13; 14; 15; 16; 17; 18; 19; 20; 21; 22;
                           23; 24; 25; 26; 27; 28; 29; 30; 31]) by (simpl; lia).
    clear Hint Hn. simpl in Hcases.
    repeat (destruct Hcases as [<- | Hcases]; [reflexivity |]). destruct Hcases.
  - intros Hn Hspell. unfold RVInstruction.get_print_name.
    cbn [Py.first_char bind]. rewrite Ascii.eqb_refl.
    change (Py.drop 1 (String "x" rest)) with rest. rewrite Hint. cbn [bind].
    literal_register rest Hint.
    rewrite !Z.geb_leb.
    destruct (Z.leb_spec 10 n), (Z.leb_spec 12 n), (Z.leb_spec 28 n); try lia.
    reflexivity.
Qed.

Lemma get_print_name_by_value_witness :
  RVInstruction.get_print_name "x010" = Ok "a0" /\
  RVInstruction.get_print_name "x05" = Ok "x05".
Proof.
  split.
  - refine (proj1 (get_print_name_by_value "010" 10 eq_refl) _). lia.
  - refine (proj2 (get_print_name_by_value "05" 5 eq_refl) _ _); [lia | discriminate].
Defined.

Lemma Ok_inj {A : Type} (a b : A) : Ok a = Ok b -> a = b.
Proof. intros H. injection H as H. exact H. Qed.

Lemma print_xreg (n : nat) :
  (n < 32)%nat -> RVInstruction.get_print_name (xreg n) = Ok (nth n abi_names "").
Proof.
  intros Hn.
  do 32 (destruct n as [| n]; [vm_compute; reflexivity |]). lia.
Qed.

Lemma abi_index (n : nat) :
  (n < 32)%nat -> index_of (nth n abi_names "") abi_names = Some n.
Proof.
  intros Hn.
  do 32 (destruct n as [| n]; [vm_compute; reflexivity |]). lia.
Qed.

Lemma abi_name_fixed (n : nat) :
  (n < 32)%nat ->
  RVInstruction.get_print_name (nth n abi_names "") = Ok (nth n abi_names "").
Proof.
  intros Hn.
  do 32 (destruct n as [| n]; [vm_compute; reflexivity |]). lia.
Qed.

(** X10: on the register ids x0..x31 the print names are distinct, and
    printing a print name again returns it unchanged. *)
Theorem print_names_distinct (n m : nat) (s : string) :
  (n < 32)%nat -> (m < 32)%nat ->
  RVInstruction.get_print_name (xreg n) = Ok s ->
  (RVInstruction.get_print_name (xreg m) = Ok s -> n = m) /\
  RVInstruction.get_print_name s = Ok s.
Proof.
  intros Hn Hm Hs. rewrite (print_xreg n Hn) in Hs. apply Ok_inj in Hs as <-. split.
  - rewrite (print_xreg m Hm). intros E. apply Ok_inj in E.
    apply (f_equal (fun x => index_of x abi_names)) in E. cbv beta in E.
    rewrite (abi_index n Hn), (abi_index m Hm) in E. congruence.
  - apply abi_name_fixed, Hn.
Qed.

Lemma print_names_distinct_witness :
  (RVInstruction.get_print_name (xreg 8) = Ok "s0" -> 8 = 8)%nat /\
  RVInstruction.get_print_name "s0" = Ok "s0".
Proof.
  refine (print_names_distinct 8 8 "s0" _ _ eq_refl); lia.
Defined.

Lemma mapM_print_xregs (ns : list nat) :
  Forall (fun n => (n < 32)%nat) ns ->
  mapM RVInstruction.get_print_name (map xreg ns)
  = Ok (map (fun n => nth n abi_names "") ns).
Proof.
  induction 1 as [| n ns Hn _ IH]; [reflexivity |].
  cbn [map]. apply mapM_cons_ok; [apply print_xreg, Hn | exact IH].
Qed.

(** X11: an instruction whose registers are all among x0..x31 is always
    rendered, unless its name takes a base register and it has no source
    register; in the plain layout the registers appear under their ABI
    names, destinations first. *)
Theorem str_on_xregs (self : RVInstruction.t) (ds ss : list nat) :
  RVInstruction.dest_registers self = map xreg ds ->
  RVInstruction.src_registers self = map xreg ss ->
  Forall (fun n => (n < 32)%nat) ds ->
  Forall (fun n => (n < 32)%nat) ss ->
  (In (RVInstruction.name self) base_register_names -> ss <> []) ->
  succeeds (RVInstruction.__str__ self) /\
  (RVInstruction.in_list (RVInstruction.name self) base_layout_names = false ->
   RVInstruction.__str__ self
   = Ok (Py.strip (RVInstruction.name self ++ " "
                   ++ joined (map (fun n => nth n abi_names "") ds)
                        (map (fun n => nth n abi_names "") ss)
                        (RVInstruction.immediates self) (RVInstruction.mask self)))).
Proof.
  intros Hd Hs Hds Hss Hbase.
  pose proof (mapM_print_xregs ds Hds) as Hdest. rewrite <- Hd in Hdest.
  pose proof (mapM_print_xregs ss Hss) as Hsrc. rewrite <- Hs in Hsrc.
  split.
  - apply (str_returns self _ _ Hdest Hsrc).
    intros Hin Hnil. apply (Hbase Hin).
    rewrite Hs in Hnil. destruct ss; [reflexivity | discriminate Hnil].
  - intros Hplain. apply (str_plain self _ _ Hdest Hsrc Hplain).
Qed.

Lemma str_on_xregs_witness :
  RVInstruction.__str__ (Sample.instr "add" ["x18"] ["x27"; "x31"] [])
  = Ok "add s2,s11,t6".
Proof.
  refine (proj2 (str_on_xregs (Sample.instr "add" ["x18"] ["x27"; "x31"] [])
                   [18%nat] [27%nat; 31%nat] eq_refl eq_refl _ _ _) eq_refl).
  - repeat constructor.
  - repeat constructor.
  - discriminate.
Defined.

(** ** The configuration built by the constructor *)

Section Configuration.

Variables I32 M32 V32 C32 : Extension.t.
Variable isa : string.

Lemma init_lookup (key : bitarray) :
  RV32.instructionTable (RV32.__init__ I32 M32 V32 C32 isa) !! key
  = first_entry
      [entry_if (Py.contains "C" isa) C32 key;
       entry_if (Py.contains "V" isa) V32 key;
       entry_if (Py.contains "M" isa) M32 key;
       entry_if (Py.contains "32I" isa) I32 key].
Proof.
  unfold RV32.__init__, RV32.update, entry_if.
  destruct (Py.contains "32I" isa), (Py.contains "M" isa),
    (Py.contains "V" isa), (Py.contains "C" isa);
    cbn [RV32.instructionTable first_entry];
    rewrite ?lookup_union, ?lookup_empty;
    repeat match goal with
           | |- context [Extension.instructionTable ?e !! key] =>
               destruct (Extension.instructionTable e !! key)
           end;
    reflexivity.
Qed.

(** X12: the merged table gives, for a key, the entry of the last enabled
    extension that has one, in the order of the constructor: C32 before
    V32 before M32 before I32; a key no enabled extension has is absent. *)
Theorem init_table_priority (key : bitarray) :
  RV32.instructionTable (RV32.__init__ I32 M32 V32 C32 isa) !! key
  = first_entry
      [entry_if (Py.contains "C" isa) C32 key;
       entry_if (Py.contains "V" isa) V32 key;
       entry_if (Py.contains "M" isa) M32 key;
       entry_if (Py.contains "32I" isa) I32 key].
Proof. apply init_lookup. Qed.

(** X13: a mnemonic is in the name set of the configuration exactly when
    it is in the name set of I32, M32 or C32 and that extension is enabled;
    the vector extension adds nothing to the name set. *)
Theorem init_name_set (mnemonic : string) :
  mnemonic ∈ RV32.instructionNameSet (RV32.__init__ I32 M32 V32 C32 isa) <->
  (Py.contains "32I" isa = true /\ mnemonic ∈ Extension.instructionNameSet I32) \/
  (Py.contains "M" isa = true /\ mnemonic ∈ Extension.instructionNameSet M32) \/
  (Py.contains "C" isa = true /\ mnemonic ∈ Extension.instructionNameSet C32).
Proof.
  unfold RV32.__init__.
  destruct (Py.contains "32I" isa), (Py.contains "M" isa),
    (Py.contains "V" isa), (Py.contains "C" isa);
    cbn [RV32.instructionNameSet];
    rewrite ?elem_of_union, ?elem_of_empty; intuition discriminate.
Qed.

(** X14: [decode] on the merged configuration calls the entry of the
    last enabled extension that has the key and raises [KeyError] when
    none has it: an entry of C32 is called whatever the other extensions
    hold for the key, and a configuration whose isa names no extension
    raises [KeyError] on every bit sequence that has a key. *)
Theorem decode_merged
    (getOpcode : bitarray -> result bitarray) (ba key : bitarray) :
  getOpcode ba = Ok key ->
  let self := RV32.__init__ I32 M32 V32 C32 isa in
  RV32.decode getOpcode self ba
  = match first_entry
            [entry_if (Py.contains "C" isa) C32 key;
             entry_if (Py.contains "V" isa) V32 key;
             entry_if (Py.contains "M" isa) M32 key;
             entry_if (Py.contains "32I" isa) I32 key] with
    | Some f => f ba
    | None => Raise KeyError
    end /\
  (forall f, Py.contains "C" isa = true ->
     Extension.instructionTable C32 !! key = Some f ->
     RV32.decode getOpcode self ba = f ba) /\
  (Py.contains "32I" isa = false -> Py.contains "M" isa = false ->
   Py.contains "V" isa = false -> Py.contains "C" isa = false ->
   RV32.decode getOpcode self ba = Raise KeyError).
Proof.
  intros Hkey self.
  assert (Hdec : RV32.decode getOpcode self ba
                 = match RV32.instructionTable self !! key with
                   | Some f => f ba
                   | None => Raise KeyError
                   end).
  { unfold RV32.decode. rewrite Hkey. reflexivity. }
  unfold self in *. rewrite init_lookup in Hdec.
  split; [exact Hdec | split].
  - intros f HC Hf. rewrite Hdec. unfold entry_if. rewrite HC, Hf. reflexivity.
  - intros HI HM HV HC. rewrite Hdec. unfold entry_if.
    rewrite HI, HM, HV, HC. reflexivity.
Qed.

End Configuration.

Lemma decode_merged_witness :
  Sample.decode "32IC" (replicate 14 false ++ Sample.QUADRANT_1)%list
  = Sample.entry "CI" "c.addi" (replicate 14 false ++ Sample.QUADRANT_1)%list /\
  Sample.decode "rv64" (replicate 25 false ++ Sample.OP_IMM)%list = Raise KeyError.
Proof.
  split.
  - refine (proj1 (proj2 (decode_merged Sample.I32 Sample.M32 Sample.V32 Sample.C32
                            "32IC" Sample.getOpcode
                            (replicate 14 false ++ Sample.QUADRANT_1)%list
                            Sample.QUADRANT_1 eq_refl))
              (Sample.entry "CI" "c.addi") eq_refl _).
    vm_compute. reflexivity.
  - exact (proj2 (proj2 (decode_merged Sample.I32 Sample.M32 Sample.V32 Sample.C32
                           "rv64" Sample.getOpcode
                           (replicate 25 false ++ Sample.OP_IMM)%list
                           Sample.OP_IMM eq_refl))
             eq_refl eq_refl eq_refl eq_refl).
Defined.

Lemma prefix_cons (a b : ascii) (s r : string) :
  String.prefix (String a s) (String b r)
  = if ascii_dec a b then String.prefix s r else false.
Proof. reflexivity. Qed.

Lemma contains_RV_V (s : string) :
  Py.contains "RV" s = true -> Py.contains "V" s = true.
Proof.
  induction s as [| a r IH]; [discriminate |].
  cbn [Py.contains]. intros H. apply orb_true_iff. right.
  apply orb_true_iff in H as [H | H]; [| apply IH, H].
  rewrite prefix_cons in H. destruct (ascii_dec "R" a); [| discriminate H].
  destruct r as [| b r']; [discriminate H |].
  cbn [Py.contains]. rewrite H. reflexivity.
Qed.

(** X15: the extensions are chosen by substring tests, so an isa text
    that contains RV, such as RV32I, enables the vector table: a key the
    vector table has is decoded by its entry, before those of M32 and I32,
    unless the compressed table is enabled and has the key too. *)
Theorem rv_isa_enables_vector
    (I32 M32 V32 C32 : Extension.t) (isa : string) (key : bitarray)
    (f : bitarray -> result RVInstruction.t) :
  Py.contains "RV" isa = true ->
  Extension.instructionTable V32 !! key = Some f ->
  (Py.contains "C" isa = true -> Extension.instructionTable C32 !! key = None) ->
  RV32.instructionTable (RV32.__init__ I32 M32 V32 C32 isa) !! key = Some f.
Proof.
  intros HRV Hf HC. rewrite init_lookup. unfold entry_if.
  rewrite (contains_RV_V isa HRV), Hf.
  destruct (Py.contains "C" isa); [rewrite HC by reflexivity |]; reflexivity.
Qed.

Lemma rv_isa_enables_vector_witness :
  RV32.instructionTable (Sample.rv "RV32I") !! Sample.OP_V
  = Some (Sample.entry "V" "vadd.vv").
Proof.
  refine (rv_isa_enables_vector Sample.I32 Sample.M32 Sample.V32 Sample.C32
            "RV32I" Sample.OP_V (Sample.entry "V" "vadd.vv") eq_refl _ _).
  - vm_compute. reflexivity.
  - discriminate.
Defined.

(** ** The bits handed to decode *)

Lemma to01_bits_of_pos (p : positive) :
  forall acc, to01 (bits_of_pos p acc) = Py.bin_digits p (to01 acc).
Proof.
  induction p as [p IH | p IH |]; intros acc; simpl; try apply IH; reflexivity.
Qed.

Lemma raw_is_bits (n : Z) :
  0 <= n -> Py.drop 2 (Py.bin n) = to01 (bits_of_Z n).
Proof.
  intros Hn. destruct n as [| p | p]; [reflexivity | | lia].
  symmetry. apply (to01_bits_of_pos p []).
Qed.

Lemma bits_of_pos_acc (p : positive) :
  forall acc, bits_of_pos p acc = (bits_of_pos p [] ++ acc)%list.
Proof.
  induction p as [p IH | p IH |]; intros acc; simpl; [| | reflexivity].
  - rewrite (IH (true :: acc)), (IH [true]), <- app_assoc. reflexivity.
  - rewrite (IH (false :: acc)), (IH [false]), <- app_assoc. reflexivity.
Qed.

Lemma bits_value_snoc (l : bitarray) (b : bool) :
  bits_value (l ++ [b])%list = 2 * bits_value l + (if b then 1 else 0).
Proof. unfold bits_value. rewrite fold_left_app. reflexivity. Qed.

Lemma bits_value_pos (p : positive) : bits_value (bits_of_pos p []) = Z.pos p.
Proof.
  induction p as [p IH | p IH |]; simpl; [| | reflexivity].
  - rewrite bits_of_pos_acc, bits_value_snoc, IH. lia.
  - rewrite bits_of_pos_acc, bits_value_snoc, IH. lia.
Qed.

Lemma bits_value_Z (n : Z) : 0 <= n -> bits_value (bits_of_Z n) = n.
Proof.
  intros Hn. destruct n as [| p | p]; [reflexivity | apply bits_value_pos | lia].
Qed.

Lemma bits_value_zeros (k : nat) (l : bitarray) :
  bits_value (replicate k false ++ l)%list = bits_value l.
Proof.
  unfold bits_value. rewrite fold_left_app. f_equal.
  induction k as [| k IH]; [reflexivity | exact IH].
Qed.

Lemma size_nat_log2 (p : positive) :
  Pos.size_nat p = (Z.to_nat (Z.log2 (Z.pos p)) + 1)%nat.
Proof.
  assert (H : forall q, Pos.size_nat q = Pos.to_nat (Pos.size q)).
  { induction q as [q IH | q IH |]; simpl; rewrite ?Pos2Nat.inj_succ, ?IH; reflexivity. }
  destruct p as [q | q |]; simpl; rewrite ?H; lia.
Qed.

Lemma bits_of_Z_length (n : Z) :
  0 <= n -> length (bits_of_Z n) = (Z.to_nat (Z.log2 n) + 1)%nat.
Proof.
  intros Hn. destruct n as [| p | p]; [reflexivity | | lia].
  rewrite <- size_nat_log2, <- bin_digits_length, <- to01_length.
  f_equal. apply (to01_bits_of_pos p []).
Qed.

Lemma decodeHex_decode
    (getOpcode : bitarray -> result bitarray) (self : RV32.t)
    (hex : string) (n : Z) :
  Py.int hex 16 = Ok n -> 0 <= n ->
  RV32.decodeHex getOpcode self hex
  = RV32.decode getOpcode self
      (replicate (width_of n - length (bits_of_Z n)) false ++ bits_of_Z n)%list.
Proof.
  intros Hint Hn. unfold RV32.decodeHex. rewrite Hint. cbn [bind].
  rewrite (raw_is_bits n Hn), bitarray_of_to01. cbn [bind].
  replace (if negb (String.eqb (Py.last_chars 2 (to01 (bits_of_Z n))) "11")
           then 16%nat else 32%nat) with (width_of n).
  - rewrite zfill_to01, to01_length, <- to01_zeros, bitarray_of_to01. reflexivity.
  - unfold width_of. rewrite <- (raw_is_bits n Hn).
    pose proof (last_chars_mod4 n Hn) as Hmod.
    destruct (String.eqb (Py.last_chars 2 (Py.drop 2 (Py.bin n))) "11").
    + rewrite (proj1 Hmod eq_refl). reflexivity.
    + destruct (Z.eqb_spec (n mod 4) 3) as [E | _]; [| reflexivity].
      apply Hmod in E. discriminate E.
Qed.

(** X16: for a text [int] reads as the number [n], not negative, the bit
    sequence [decodeHex] hands to [decode] denotes [n]; it is as long as
    the selected width, or as the binary text of [n] when that is longer. *)
Theorem decodeHex_bits
    (getOpcode : bitarray -> result bitarray) (self : RV32.t)
    (hex : string) (n : Z) :
  Py.int hex 16 = Ok n -> 0 <= n ->
  exists ba : bitarray,
    RV32.decodeHex getOpcode self hex = RV32.decode getOpcode self ba /\
    bits_value ba = n /\
    length ba = Nat.max (width_of n) (Z.to_nat (Z.log2 n) + 1).
Proof.
  intros Hint Hn. eexists. split; [apply (decodeHex_decode _ _ _ n Hint Hn) |].
  split.
  - rewrite bits_value_zeros. apply bits_value_Z, Hn.
  - rewrite length_app, length_replicate, (bits_of_Z_length n Hn). lia.
Qed.

Lemma decodeHex_bits_witness :
  exists ba : bitarray,
    Sample.decodeHex "32I" "0x00050293" = Sample.decode "32I" ba /\
    bits_value ba = 328339 /\ length ba = 32%nat.
Proof.
  assert (H0 : 0 <= 328339) by lia.
  destruct (decodeHex_bits Sample.getOpcode (Sample.rv "32I") "0x00050293" 328339
              eq_refl H0) as (ba & Hdec & Hval & Hlen).
  exists ba. repeat split; assumption.
Defined.

Lemma log2_width (n : Z) (w : nat) :
  2 ^ Z.of_nat w <= n -> (w < Z.to_nat (Z.log2 n) + 1)%nat.
Proof.
  intros Hn.
  assert (Hpos : 0 < 2 ^ Z.of_nat w) by (apply Z.pow_pos_nonneg; lia).
  assert (Hlog : Z.of_nat w <= Z.log2 n) by (apply Z.log2_le_pow2; lia).
  lia.
Qed.

(** X17: [decodeHex] never cuts bits off: for a value that does not fit
    the selected width (a value of 2^16 or more that does not end in 11, or
    of 2^32 or more that does) the sequence handed to [decode] is the whole
    binary text, longer than the width. *)
Theorem decodeHex_keeps_long_words
    (getOpcode : bitarray -> result bitarray) (self : RV32.t)
    (hex : string) (n : Z) :
  Py.int hex 16 = Ok n ->
  2 ^ Z.of_nat (width_of n) <= n ->
  RV32.decodeHex getOpcode self hex = RV32.decode getOpcode self (bits_of_Z n) /\
  (width_of n < length (bits_of_Z n))%nat.
Proof.
  intros Hint Hlong.
  assert (Hn : 0 <= n).
  { assert (0 < 2 ^ Z.of_nat (width_of n)) by (apply Z.pow_pos_nonneg; lia). lia. }
  assert (Hlen : (width_of n < length (bits_of_Z n))%nat).
  { rewrite (bits_of_Z_length n Hn). apply log2_width, Hlong. }
  split; [| exact Hlen].
  rewrite (decodeHex_decode _ _ _ n Hint Hn).
  replace (width_of n - length (bits_of_Z n))%nat with 0%nat by lia.
  reflexivity.
Qed.

Lemma decodeHex_keeps_long_words_witness :
  Sample.decodeHex "32IC" "0x00050290" = Sample.decode "32IC" (bits_of_Z 328336) /\
  (16 < length (bits_of_Z 328336))%nat.
Proof.
  refine (decodeHex_keeps_long_words Sample.getOpcode (Sample.rv "32IC")
            "0x00050290" 328336 eq_refl _).
  vm_compute. discriminate.
Defined.

(** X18: with table entries that report the length of their input as the
    size, a decoded word that fits its width is 4 bytes long when its value
    ends in 11 and 2 bytes long otherwise. *)
Theorem decoded_size_in_bytes
    (getOpcode : bitarray -> result bitarray) (self : RV32.t)
    (hex : string) (n : Z) (i : RVInstruction.t) :
  sized_entries (RV32.instructionTable self) ->
  Py.int hex 16 = Ok n -> 0 <= n -> n < 2 ^ Z.of_nat (width_of n) ->
  RV32.decodeHex getOpcode self hex = Ok i ->
  RVInstruction.size i = Z.of_nat (width_of n) /\
  RVInstruction.sizeInBytes i = Ok (if n mod 4 =? 3 then 4 else 2).
Proof.
  intros Hsized Hint Hn Hfit Hdec.
  rewrite (decodeHex_decode _ _ _ n Hint Hn) in Hdec.
  apply decode_entry in Hdec as (key & f & Hf & Hi).
  pose proof (Hsized key f _ i Hf Hi) as Hsize.
  assert (Hlen : (length (bits_of_Z n) <= width_of n)%nat).
  { rewrite <- to01_length, <- (raw_is_bits n Hn).
    apply raw_length_bound; [exact Hn | | exact Hfit].
    unfold width_of. destruct (n mod 4 =? 3); lia. }
  rewrite length_app, length_replicate in Hsize.
  replace (width_of n - length (bits_of_Z n) + length (bits_of_Z n))%nat
    with (width_of n) in Hsize by lia.
  split; [exact Hsize |].
  unfold RVInstruction.sizeInBytes. rewrite Hsize.
  unfold width_of. destruct (n mod 4 =? 3); reflexivity.
Qed.

Lemma decoded_size_in_bytes_witness :
  exists i, Sample.decodeHex "32IC" "0x0001" = Ok i /\
            RVInstruction.sizeInBytes i = Ok 2.
Proof.
  destruct (Sample.decodeHex "32IC" "0x0001") as [i |] eqn:E; [| discriminate E].
  exists i. split; [reflexivity |].
  assert (H0 : 0 <= 1) by lia.
  assert (H1 : 1 < 2 ^ Z.of_nat (width_of 1)) by (vm_compute; reflexivity).
  exact (proj2 (decoded_size_in_bytes Sample.getOpcode (Sample.rv "32IC") "0x0001" 1 i
                  (sized_entries_rv "32IC") eq_refl H0 H1 E)).
Defined.
